(** * aesthetic-nav: the link catalogue, its ordering and its access gate

    A shallow embedding of [main.py] (a FastAPI application over SQLite).

    - A database row of the [links] table is a record with one field per
      column; the table is the list of its rows.  SQL statements are
      written as the list operations they denote: [WHERE] is [filter],
      [UPDATE .. WHERE] rewrites every row satisfying the condition,
      [ORDER BY] sorts with the comparison of the listed columns.
    - Python [int] and SQLite [INTEGER] are [Z].  A Python [int] that a
      route hands to SQLite has to lie in SQLite's 64 bits: where it does
      not, [sqlite3] raises and the route answers 500 with nothing written
      ([binds]).  [str] and [TEXT] are [string] (bytes of the UTF-8
      encoding, compared from the first byte on, which is how both Python
      and SQLite's default collation compare); [Optional[..]] is
      [option].
    - A route that writes is a function [DB -> DB * response _]: the
      database after the call and either the returned body or the
      [HTTPException] raised.  A route that only reads is a function of
      the database.
    - The clock is explicit: [utcnow] in seconds for the token's expiry,
      and the text SQLite puts in [created_at] for [CURRENT_TIMESTAMP]. *)

From Stdlib Require Import ZArith List Bool String Ascii Lia.
From Stdlib Require Import Sorted Permutation.
Import ListNotations.

Local Open Scope string_scope.
Local Open Scope Z_scope.
Local Open Scope list_scope.

(** ** Pydantic models *)

Module LinkCreate.
Record t := mk {
  title : string;
  url : string;
  icon : option string;
  icon_url : option string;
  description : option string;
  category : string;
  is_favorite : bool
}.
End LinkCreate.

Module LinkUpdate.
Record t := mk {
  title : option string;
  url : option string;
  icon : option string;
  icon_url : option string;
  description : option string;
  category : option string;
  is_favorite : option bool
}.
End LinkUpdate.

Module LinkResponse.
Record t := mk {
  id : Z;
  title : string;
  url : string;
  icon : option string;
  icon_url : option string;
  description : option string;
  category : string;
  is_favorite : bool;
  sort_index : Z;
  usage_count : Z;
  created_at : string
}.
End LinkResponse.

Module LinkReorderItem.
Record t := mk {
  id : Z;
  category : string;
  sort_index : Z
}.
End LinkReorderItem.

Module LinkReorderRequest.
Record t := mk { items : list LinkReorderItem.t }.
End LinkReorderRequest.

(** ** The database *)

(** A row of the table [links].  [is_favorite] is the INTEGER column the
    routes write as 0 or 1. *)
Module Row.
Record t := mk {
  id : Z;
  title : string;
  url : string;
  icon : option string;
  category : string;
  is_favorite : Z;
  usage_count : Z;
  created_at : string;
  description : option string;
  icon_url : option string;
  sort_index : Z
}.
End Row.

(** The rows of the table [settings] the catalogue reads.  A row that is
    absent is [None]; the value of a row that is present is the JSON text
    of a list of strings, held here as the list [json.loads] gives. *)
Record SettingsTable := {
  hidden_categories_row : option (list string);
  category_order_row : option (list string)
}.

(** [links_seq] is the counter SQLite keeps for an AUTOINCREMENT key: the
    largest id the table has ever held. *)
Record DB := {
  links : list Row.t;
  links_seq : Z;
  settings : SettingsTable
}.

Record HTTPException := { status_code : Z; detail : string }.

Inductive response (A : Type) : Type :=
| Return (a : A)
| Raise (e : HTTPException).
Arguments Return {A} a.
Arguments Raise {A} e.

(** What a route answers when Python fails outside an [HTTPException]: an
    exception of [sqlite3], or subscripting the [None] a [fetchone] gave. *)
Definition internal_server_error : HTTPException :=
  {| status_code := 500; detail := "Internal Server Error" |}.

(** ** The limits of SQLite *)

Definition INT64_MIN : Z := -9223372036854775808.
Definition INT64_MAX : Z := 9223372036854775807.

(** [sqlite3] binds a Python [int] to a parameter of a statement when it is
    one of SQLite's integers, and raises [OverflowError] when it is not. *)
Definition binds (z : Z) : bool := (INT64_MIN <=? z) && (z <=? INT64_MAX).

(** The number of parameters SQLite accepts in one statement, which is set
    when SQLite is built (999, or 32766 in later versions); a statement with
    more raises [OperationalError].  The statements the application writes
    out in full have eight parameters at most and are taken to fit. *)
Class Sqlite := {
  SQLITE_MAX_VARIABLE_NUMBER : Z;
  written_statements_fit : (8 <=? SQLITE_MAX_VARIABLE_NUMBER) = true
}.

(** ** Python truth values *)

Definition truthy_str (s : string) : bool := negb (String.eqb s "").

Definition truthy_opt_str (o : option string) : bool :=
  match o with
  | Some s => truthy_str s
  | None => false
  end.

Definition truthy_list {A : Type} (l : list A) : bool :=
  match l with
  | [] => false
  | _ :: _ => true
  end.

(** [x in l] on a list of strings. *)
Definition str_in (x : string) (l : list string) : bool :=
  existsb (String.eqb x) l.

(** ** Sorting *)

Section Sort.
Context {A : Type}.
Variable leb : A -> A -> bool.

Fixpoint insert_sorted (x : A) (l : list A) : list A :=
  match l with
  | [] => [x]
  | y :: l' => if leb x y then x :: l else y :: insert_sorted x l'
  end.

(** A stable sort: equal elements keep the order they came in. *)
Definition sort_by (l : list A) : list A :=
  fold_right insert_sorted [] l.
End Sort.

(** Python's [sorted] on a list of [str]. *)
Definition sorted (l : list string) : list string := sort_by String.leb l.

(** ** SQL on the table [links] *)

(** [ORDER BY category ASC, sort_index ASC, created_at DESC]. *)
Definition order_by_links (a b : Row.t) : comparison :=
  match String.compare (Row.category a) (Row.category b) with
  | Eq =>
      match Z.compare (Row.sort_index a) (Row.sort_index b) with
      | Eq => String.compare (Row.created_at b) (Row.created_at a)
      | c => c
      end
  | c => c
  end.

Definition order_by_links_leb (a b : Row.t) : bool :=
  match order_by_links a b with
  | Gt => false
  | _ => true
  end.

(** [SELECT DISTINCT category FROM links]. *)
Fixpoint distinct (l : list string) : list string :=
  match l with
  | [] => []
  | x :: l' => if str_in x l' then distinct l' else x :: distinct l'
  end.

(** [SELECT COALESCE(MAX(sort_index), 0) FROM links WHERE category = ?]:
    [MAX] over no row is NULL, which [COALESCE] turns into 0. *)
Fixpoint max_list (l : list Z) : option Z :=
  match l with
  | [] => None
  | x :: l' =>
      match max_list l' with
      | None => Some x
      | Some m => Some (Z.max x m)
      end
  end.

Definition coalesce (o : option Z) (d : Z) : Z :=
  match o with
  | Some v => v
  | None => d
  end.

Definition in_category (c : string) (r : Row.t) : bool :=
  String.eqb (Row.category r) c.

Definition max_sort_index (c : string) (t : list Row.t) : Z :=
  coalesce (max_list (map Row.sort_index (filter (in_category c) t))) 0.

Definition has_id (i : Z) (r : Row.t) : bool := Z.eqb (Row.id r) i.

(** [UPDATE links SET .. WHERE id = ?]. *)
Definition update_where_id (i : Z) (f : Row.t -> Row.t) (t : list Row.t)
  : list Row.t :=
  map (fun r => if has_id i r then f r else r) t.

(** [SELECT * FROM links WHERE id = ?] followed by [fetchone]. *)
Definition fetch_by_id (i : Z) (t : list Row.t) : option Row.t :=
  find (has_id i) t.

(** The body the routes build from a fetched row. *)
Definition LinkResponse_of_row (row : Row.t) : LinkResponse.t :=
  {| LinkResponse.id := Row.id row;
     LinkResponse.title := Row.title row;
     LinkResponse.url := Row.url row;
     LinkResponse.icon := Row.icon row;
     LinkResponse.icon_url := Row.icon_url row;
     LinkResponse.category := Row.category row;
     LinkResponse.is_favorite := negb (Z.eqb (Row.is_favorite row) 0);
     LinkResponse.description := Row.description row;
     LinkResponse.usage_count := Row.usage_count row;
     LinkResponse.sort_index := Row.sort_index row;
     LinkResponse.created_at := Row.created_at row |}.

Definition hidden_categories_of (db : DB) : list string :=
  match hidden_categories_row (settings db) with
  | Some v => v
  | None => []
  end.

Definition category_order_of (db : DB) : list string :=
  match category_order_row (settings db) with
  | Some v => v
  | None => []
  end.

(** ** GET /api/links *)

(** The [WHERE] clause [get_links] assembles. *)
Definition get_links_where (hidden_categories : list string)
    (category : option string) (favorite : option bool)
    (current_user : option string) (r : Row.t) : bool :=
  (if negb (truthy_opt_str current_user) && truthy_list hidden_categories
   then negb (str_in (Row.category r) hidden_categories)
   else true)
  && (if truthy_opt_str category
      then match category with
           | Some c => String.eqb (Row.category r) c
           | None => true
           end
      else true)
  && (match favorite with
      | Some fav => Z.eqb (Row.is_favorite r) (if fav then 1 else 0)
      | None => true
      end).

Definition get_links_rows (db : DB) (category : option string)
    (favorite : option bool) (current_user : option string) : list Row.t :=
  sort_by order_by_links_leb
    (filter (get_links_where (hidden_categories_of db) category favorite
               current_user)
       (links db)).

(** A parameter of a statement. *)
Inductive sql_value : Type :=
| Text (s : string)
| Integer (z : Z).

(** The list [params] when [get_links] runs its query. *)
Definition get_links_params (hidden_categories : list string)
    (category : option string) (favorite : option bool)
    (current_user : option string) : list sql_value :=
  (if negb (truthy_opt_str current_user) && truthy_list hidden_categories
   then map Text hidden_categories
   else [])
  ++ (if truthy_opt_str category
      then match category with
           | Some c => [Text c]
           | None => []
           end
      else [])
  ++ (match favorite with
      | Some fav => [Integer (if fav then 1 else 0)]
      | None => []
      end).

Definition get_links `{Sqlite} (db : DB) (category : option string)
    (favorite : option bool) (current_user : option string)
  : response (list LinkResponse.t) :=
  let params :=
    get_links_params (hidden_categories_of db) category favorite
      current_user in
  if SQLITE_MAX_VARIABLE_NUMBER <? Z.of_nat (List.length params) then
    Raise internal_server_error
  else
    Return
      (map LinkResponse_of_row
         (get_links_rows db category favorite current_user)).

(** ** GET /api/categories *)

Definition get_categories (db : DB) : list string :=
  let categories := distinct (map Row.category (links db)) in
  let category_order := category_order_of db in
  let ordered := filter (fun cat => str_in cat categories) category_order in
  let remaining :=
    sorted (filter (fun cat => negb (str_in cat ordered)) categories) in
  ordered ++ remaining.

(** ** Writing a column of a row *)

Definition set_title (v : string) (r : Row.t) : Row.t :=
  Row.mk (Row.id r) v (Row.url r) (Row.icon r) (Row.category r)
    (Row.is_favorite r) (Row.usage_count r) (Row.created_at r)
    (Row.description r) (Row.icon_url r) (Row.sort_index r).

Definition set_url (v : string) (r : Row.t) : Row.t :=
  Row.mk (Row.id r) (Row.title r) v (Row.icon r) (Row.category r)
    (Row.is_favorite r) (Row.usage_count r) (Row.created_at r)
    (Row.description r) (Row.icon_url r) (Row.sort_index r).

Definition set_icon (v : option string) (r : Row.t) : Row.t :=
  Row.mk (Row.id r) (Row.title r) (Row.url r) v (Row.category r)
    (Row.is_favorite r) (Row.usage_count r) (Row.created_at r)
    (Row.description r) (Row.icon_url r) (Row.sort_index r).

Definition set_category (v : string) (r : Row.t) : Row.t :=
  Row.mk (Row.id r) (Row.title r) (Row.url r) (Row.icon r) v
    (Row.is_favorite r) (Row.usage_count r) (Row.created_at r)
    (Row.description r) (Row.icon_url r) (Row.sort_index r).

Definition set_is_favorite (v : Z) (r : Row.t) : Row.t :=
  Row.mk (Row.id r) (Row.title r) (Row.url r) (Row.icon r) (Row.category r)
    v (Row.usage_count r) (Row.created_at r)
    (Row.description r) (Row.icon_url r) (Row.sort_index r).

Definition set_usage_count (v : Z) (r : Row.t) : Row.t :=
  Row.mk (Row.id r) (Row.title r) (Row.url r) (Row.icon r) (Row.category r)
    (Row.is_favorite r) v (Row.created_at r)
    (Row.description r) (Row.icon_url r) (Row.sort_index r).

Definition set_description (v : option string) (r : Row.t) : Row.t :=
  Row.mk (Row.id r) (Row.title r) (Row.url r) (Row.icon r) (Row.category r)
    (Row.is_favorite r) (Row.usage_count r) (Row.created_at r)
    v (Row.icon_url r) (Row.sort_index r).

Definition set_icon_url (v : option string) (r : Row.t) : Row.t :=
  Row.mk (Row.id r) (Row.title r) (Row.url r) (Row.icon r) (Row.category r)
    (Row.is_favorite r) (Row.usage_count r) (Row.created_at r)
    (Row.description r) v (Row.sort_index r).

Definition set_sort_index (v : Z) (r : Row.t) : Row.t :=
  Row.mk (Row.id r) (Row.title r) (Row.url r) (Row.icon r) (Row.category r)
    (Row.is_favorite r) (Row.usage_count r) (Row.created_at r)
    (Row.description r) (Row.icon_url r) v.

Definition with_links (db : DB) (t : list Row.t) : DB :=
  {| links := t; links_seq := links_seq db; settings := settings db |}.

(** ** POST /api/links *)

(** The id an AUTOINCREMENT key gives the next row: one more than the
    largest the table holds or has ever held. *)
Definition next_rowid (db : DB) : Z :=
  Z.max (links_seq db) (coalesce (max_list (map Row.id (links db))) 0) + 1.

(** [current_timestamp] is the text of SQLite's [CURRENT_TIMESTAMP], the
    default of [created_at]; [usage_count] takes its default 0.  The INSERT
    raises when [next_sort] does not bind, and when the key has no id left
    to give; nothing is written then. *)
Definition create_link (current_timestamp : string) (link : LinkCreate.t)
    (username : string) (db : DB) : DB * response LinkResponse.t :=
  let next_sort := max_sort_index (LinkCreate.category link) (links db) + 1 in
  let link_id := next_rowid db in
  if negb (binds next_sort) then (db, Raise internal_server_error)
  else if negb (binds link_id) then (db, Raise internal_server_error)
  else
  let inserted :=
    {| Row.id := link_id;
       Row.title := LinkCreate.title link;
       Row.url := LinkCreate.url link;
       Row.icon := LinkCreate.icon link;
       Row.icon_url := LinkCreate.icon_url link;
       Row.category := LinkCreate.category link;
       Row.is_favorite := if LinkCreate.is_favorite link then 1 else 0;
       Row.description := LinkCreate.description link;
       Row.sort_index := next_sort;
       Row.usage_count := 0;
       Row.created_at := current_timestamp |} in
  let db' :=
    {| links := links db ++ [inserted];
       links_seq := link_id;
       settings := settings db |} in
  match fetch_by_id link_id (links db') with
  | Some row => (db', Return (LinkResponse_of_row row))
  | None => (db', Raise internal_server_error)
  end.

(** ** PUT /api/links/reorder *)

Definition reorder_item (t : list Row.t) (item : LinkReorderItem.t)
  : list Row.t :=
  update_where_id (LinkReorderItem.id item)
    (fun r =>
       set_sort_index (LinkReorderItem.sort_index item)
         (set_category (LinkReorderItem.category item) r))
    t.

(** [for item in payload.items]: the table after the loop, or [None] when
    an UPDATE of the loop raises because the [sort_index] or the id of its
    item does not bind. *)
Fixpoint reorder_loop (items : list LinkReorderItem.t) (t : list Row.t)
  : option (list Row.t) :=
  match items with
  | [] => Some t
  | item :: items' =>
      if binds (LinkReorderItem.sort_index item)
         && binds (LinkReorderItem.id item)
      then reorder_loop items' (reorder_item t item)
      else None
  end.

(** The commit comes after the loop: when the loop raises, the connection
    closes on what the loop has written and none of it is kept. *)
Definition reorder_links (payload : LinkReorderRequest.t) (username : string)
    (db : DB) : DB * response string :=
  if negb (truthy_list (LinkReorderRequest.items payload)) then
    (db, Raise {| status_code := 400; detail := "No items to reorder" |})
  else
    match reorder_loop (LinkReorderRequest.items payload) (links db) with
    | Some t => (with_links db t, Return "ok")
    | None => (db, Raise internal_server_error)
    end.

(** ** PUT /api/links/{link_id} *)

(** One [column = ?] of the statement [update_link] builds, with the
    parameter bound to it. *)
Inductive assignment : Type :=
| Set_title (v : string)
| Set_url (v : string)
| Set_icon (v : string)
| Set_icon_url (v : string)
| Set_description (v : string)
| Set_category (v : string)
| Set_sort_index (v : Z)
| Set_is_favorite (v : Z).

Definition assign (r : Row.t) (a : assignment) : Row.t :=
  match a with
  | Set_title v => set_title v r
  | Set_url v => set_url v r
  | Set_icon v => set_icon (Some v) r
  | Set_icon_url v => set_icon_url (Some v) r
  | Set_description v => set_description (Some v) r
  | Set_category v => set_category v r
  | Set_sort_index v => set_sort_index v r
  | Set_is_favorite v => set_is_favorite v r
  end.

(** [if field is not None: updates.append(..)]. *)
Definition if_not_None {A : Type} (field : option A) (a : A -> assignment)
  : list assignment :=
  match field with
  | Some v => [a v]
  | None => []
  end.

(** The list [updates] (with [params] zipped in) that [update_link] has
    built when it reaches [if not updates]. *)
Definition build_updates (link : LinkUpdate.t) (existing_category : string)
    (t : list Row.t) : list assignment :=
  if_not_None (LinkUpdate.title link) Set_title
  ++ if_not_None (LinkUpdate.url link) Set_url
  ++ if_not_None (LinkUpdate.icon link) Set_icon
  ++ if_not_None (LinkUpdate.icon_url link) Set_icon_url
  ++ if_not_None (LinkUpdate.description link) Set_description
  ++ match LinkUpdate.category link with
     | Some c =>
         Set_category c
         :: (if negb (String.eqb c existing_category)
             then [Set_sort_index (max_sort_index c t + 1)]
             else [])
     | None => []
     end
  ++ if_not_None (LinkUpdate.is_favorite link)
       (fun b : bool => Set_is_favorite (if b then 1 else 0)).

(** Whether the parameter of an assignment binds. *)
Definition assignment_binds (a : assignment) : bool :=
  match a with
  | Set_sort_index v => binds v
  | Set_is_favorite v => binds v
  | _ => true
  end.

(** The first SELECT raises when [link_id] does not bind, and the UPDATE
    when a parameter of [params] does not; nothing is written then. *)
Definition update_link (link_id : Z) (link : LinkUpdate.t) (username : string)
    (db : DB) : DB * response LinkResponse.t :=
  if negb (binds link_id) then (db, Raise internal_server_error)
  else
  match fetch_by_id link_id (links db) with
  | None => (db, Raise {| status_code := 404; detail := "Link not found" |})
  | Some existing =>
      let updates := build_updates link (Row.category existing) (links db) in
      if negb (truthy_list updates) then
        (db, Raise {| status_code := 400; detail := "No fields to update" |})
      else if negb (forallb assignment_binds updates) then
        (db, Raise internal_server_error)
      else
        let db' :=
          with_links db
            (update_where_id link_id (fun r => fold_left assign updates r)
               (links db)) in
        match fetch_by_id link_id (links db') with
        | Some row => (db', Return (LinkResponse_of_row row))
        | None => (db', Raise internal_server_error)
        end
  end.

(** ** POST /api/links/{link_id}/click *)

(** The UPDATE raises when [link_id] does not bind.  (A count is taken to
    stay under SQLite's largest integer, which no run of clicks reaches.) *)
Definition track_click (link_id : Z) (db : DB) : DB * response string :=
  if negb (binds link_id) then (db, Raise internal_server_error)
  else
    (with_links db
       (update_where_id link_id
          (fun r => set_usage_count (Row.usage_count r + 1) r)
          (links db)),
     Return "ok").

(** ** Tokens *)

(** The two claims of a token's payload the application sets and reads. *)
Record Claims := { sub : option string; exp : option Z }.

Inductive decoded : Type :=
| Payload (payload : Claims)
| JWTError.

(** What the process is started with: the signing key it reads from its
    environment, and python-jose's signing of a payload ([jws_sign]: claims,
    key, algorithm) and its check of a token's shape, algorithm and
    signature ([jws_verify]: token, key, accepted algorithms), which gives
    the payload of a token that passes. *)
Class Env := {
  SECRET_KEY : string;
  jws_sign : Claims -> string -> string -> string;
  jws_verify : string -> string -> list string -> option Claims
}.

Definition ALGORITHM : string := "HS256".
Definition ACCESS_TOKEN_EXPIRE_HOURS : Z := 24.

Definition jwt_encode `{Env} (claims : Claims) (key algorithm : string)
  : string :=
  jws_sign claims key algorithm.

(** [jwt.decode]: after the signature, the expiry: a token whose [exp] is
    earlier than the current second is refused. *)
Definition jwt_decode `{Env} (utcnow : Z) (token key : string)
    (algorithms : list string) : decoded :=
  match jws_verify token key algorithms with
  | None => JWTError
  | Some claims =>
      match exp claims with
      | Some e => if e <? utcnow then JWTError else Payload claims
      | None => Payload claims
      end
  end.

Record HTTPAuthorizationCredentials := {
  scheme : string;
  credentials : string
}.

Definition verify_token `{Env} (utcnow : Z)
    (creds : HTTPAuthorizationCredentials) : response string :=
  match jwt_decode utcnow (credentials creds) SECRET_KEY [ALGORITHM] with
  | Payload payload =>
      match sub payload with
      | Some username =>
          if negb (String.eqb username "admin") then
            Raise {| status_code := 403; detail := "Invalid token" |}
          else Return username
      | None => Raise {| status_code := 403; detail := "Invalid token" |}
      end
  | JWTError =>
      Raise {| status_code := 403; detail := "Invalid or expired token" |}
  end.

(** [s.partition(" ")]: what is before the first space and what is after
    it; the whole of [s] and the empty string when [s] has no space. *)
Fixpoint partition_space (s : string) : string * string :=
  match s with
  | EmptyString => (EmptyString, EmptyString)
  | String c s' =>
      if Ascii.eqb c " "%char then (EmptyString, s')
      else let (before, after) := partition_space s' in
           (String c before, after)
  end.

Definition lower_ascii (c : ascii) : ascii :=
  let n := N_of_ascii c in
  if ((65 <=? n) && (n <=? 90))%N then ascii_of_N (n + 32) else c.

(** [s.lower()]; only the letters A to Z lower to a letter of "bearer". *)
Fixpoint lower (s : string) : string :=
  match s with
  | EmptyString => EmptyString
  | String c s' => String (lower_ascii c) (lower s')
  end.

Definition get_current_user_optional `{Env} (utcnow : Z)
    (authorization : option string) : option string :=
  if negb (truthy_opt_str authorization) then None
  else
    match authorization with
    | None => None
    | Some header =>
        let (scheme, token) := partition_space header in
        if negb (String.eqb (lower scheme) "bearer") then None
        else
          match jwt_decode utcnow token SECRET_KEY [ALGORITHM] with
          | Payload payload =>
              match sub payload with
              | Some username =>
                  if String.eqb username "admin" then Some username else None
              | None => None
              end
          | JWTError => None
          end
    end.

Definition with_exp (data : Claims) (expire : Z) : Claims :=
  {| sub := sub data; exp := Some expire |}.

(** [utcnow] counts seconds; [timedelta(hours=h)] is [h * 3600] of them. *)
Definition create_access_token `{Env} (utcnow : Z) (data : Claims) : string :=
  let to_encode := data in
  let expire := utcnow + ACCESS_TOKEN_EXPIRE_HOURS * 3600 in
  jwt_encode (with_exp to_encode expire) SECRET_KEY ALGORITHM.

(** The token [login] hands out. *)
Definition login_token `{Env} (utcnow : Z) : string :=
  create_access_token utcnow {| sub := Some "admin"; exp := None |}.

(** ** The routes behind their dependencies *)

(** [GET /api/links] with [Depends(get_current_user_optional)] resolved
    from the request's [Authorization] header. *)
Definition GET_api_links `{Env} `{Sqlite} (utcnow : Z)
    (authorization : option string) (category : option string)
    (favorite : option bool) (db : DB) : response (list LinkResponse.t) :=
  get_links db category favorite
    (get_current_user_optional utcnow authorization).

(** [GET /api/categories] declares no dependency: whatever the request
    carries, the route is [get_categories]. *)
Definition GET_api_categories `{Env} (utcnow : Z)
    (authorization : option string) (db : DB) : list string :=
  get_categories db.

(** ** Orders on what the routes return *)

Definition str_lt (a b : string) : Prop := String.compare a b = Lt.
Definition str_le (a b : string) : Prop := String.compare a b <> Gt.


(** The order of the specification's text: a category stands where the
    resolved display order (what [get_categories] answers: the stored
    [category_order], then the other categories alphabetically) has it. *)
Module Spec.

End Spec.

(** The rows a caller who sees every category is owed: those the
    [category] and [favorite] arguments select.  An absent or empty
    [category] selects every category. *)
Definition matches_filters (category : option string)
    (favorite : option bool) (r : Row.t) : bool :=
  match category with
  | Some c => if String.eqb c "" then true else String.eqb (Row.category r) c
  | None => true
  end
  && match favorite with
     | Some true => Z.eqb (Row.is_favorite r) 1
     | Some false => Z.eqb (Row.is_favorite r) 0
     | None => true
     end.

(** The categories some link has. *)
Definition present (db : DB) (c : string) : Prop :=
  exists row, In row (links db) /\ Row.category row = c.

(** [m] is the largest [sort_index] among the links of category [c]. *)
Definition largest_sort_index (db : DB) (c : string) (m : Z) : Prop :=
  (exists row,
     In row (links db) /\ Row.category row = c /\ Row.sort_index row = m)
  /\ (forall row,
        In row (links db) -> Row.category row = c -> Row.sort_index row <= m).


(** ** Runs of calls *)


Fixpoint track_clicks (n : nat) (link_id : Z) (db : DB) : DB :=
  match n with
  | O => db
  | S n' => track_clicks n' link_id (fst (track_click link_id db))
  end.

(** ** Sample data *)

Definition sample_row (id : Z) (category : string) (sort_index : Z)
    (created_at : string) : Row.t :=
  {| Row.id := id;
     Row.title := "title";
     Row.url := "https://example.org";
     Row.icon := None;
     Row.icon_url := None;
     Row.category := category;
     Row.is_favorite := 0;
     Row.description := None;
     Row.usage_count := 0;
     Row.sort_index := sort_index;
     Row.created_at := created_at |}.

Definition sample_db (rows : list Row.t) (hidden order : list string) : DB :=
  {| links := rows;
     links_seq := coalesce (max_list (map Row.id rows)) 0;
     settings :=
       {| hidden_categories_row := Some hidden;
          category_order_row := Some order |} |}.


(** One link in a hidden category, one in a category that is not. *)
Definition db_hidden : DB :=
  sample_db
    [sample_row 1 "Private" 1 "2024-01-01 00:00:00";
     sample_row 2 "Public" 1 "2024-01-01 00:00:01"]
    ["Private"] [].

(** Links in the categories A, B and C, and the order B, A. *)
Definition db_A_B_C : DB :=
  sample_db
    [sample_row 1 "A" 1 "2024-01-01 00:00:00";
     sample_row 2 "B" 1 "2024-01-01 00:00:01";
     sample_row 3 "C" 1 "2024-01-01 00:00:02";
     sample_row 4 "A" 2 "2024-01-01 00:00:03"]
    [] ["B"; "A"].

(** One link in the category A, and a stored order that names A twice
    (what [PUT /api/categories/order] stores for the body
    [{"order": ["A", "A"]}]). *)
Definition db_order_names_A_twice : DB :=
  sample_db [sample_row 1 "A" 1 "2024-01-01 00:00:00"] [] ["A"; "A"].

(** Links 5 and 7 in a category B, in the order 7 then 5. *)
Definition db_5_and_7 : DB :=
  sample_db
    [sample_row 5 "B" 2 "2024-01-01 00:00:00";
     sample_row 7 "B" 1 "2024-01-01 00:00:01"]
    [] [].

(** A stand-in for the library that signs every payload as the one token
    it then accepts, for the admin and expiring at second 86400. *)
Definition one_token_env : Env :=
  {| SECRET_KEY := "secret";
     jws_sign := fun _ _ _ => "signed";
     jws_verify := fun token _ _ =>
       if String.eqb token "signed"
       then Some {| sub := Some "admin"; exp := Some 86400 |}
       else None |}.


(** The payload with no field set. *)
Definition empty_update : LinkUpdate.t :=
  LinkUpdate.mk None None None None None None None.

(** The payload that sets the category and nothing else. *)
Definition move_to (c : string) : LinkUpdate.t :=
  LinkUpdate.mk None None None None None (Some c) None.

(** The item of a batch that has the last word on the link [i]. *)
Definition last_item_for (i : Z) (items : list LinkReorderItem.t)
  : option LinkReorderItem.t :=
  find (fun item => Z.eqb (LinkReorderItem.id item) i) (rev items).

(** A row after a batch: where the last item naming its id puts it; where it
    was when no item names its id. *)
Definition reordered (items : list LinkReorderItem.t) (r : Row.t) : Row.t :=
  match last_item_for (Row.id r) items with
  | Some item =>
      Row.mk (Row.id r) (Row.title r) (Row.url r) (Row.icon r)
        (LinkReorderItem.category item)
        (Row.is_favorite r) (Row.usage_count r) (Row.created_at r)
        (Row.description r) (Row.icon_url r)
        (LinkReorderItem.sort_index item)
  | None => r
  end.

(** [{"items": [{id: 5, category: "A", sort_index: 1},
                {id: 7, category: "A", sort_index: 2}]}] *)
Definition reorder_5_7 : LinkReorderRequest.t :=
  LinkReorderRequest.mk
    [LinkReorderItem.mk 5 "A" 1; LinkReorderItem.mk 7 "A" 2].

(** [r'] is [r] with [n] more clicks counted and nothing else changed. *)
Definition clicked (n : Z) (r r' : Row.t) : Prop :=
  Row.usage_count r' = Row.usage_count r + n
  /\ Row.id r' = Row.id r
  /\ Row.title r' = Row.title r
  /\ Row.url r' = Row.url r
  /\ Row.icon r' = Row.icon r
  /\ Row.icon_url r' = Row.icon_url r
  /\ Row.description r' = Row.description r
  /\ Row.category r' = Row.category r
  /\ Row.is_favorite r' = Row.is_favorite r
  /\ Row.sort_index r' = Row.sort_index r
  /\ Row.created_at r' = Row.created_at r.

(** The table after [n] clicks on [link_id], row by row. *)
Definition clicked_table (n : Z) (link_id : Z) (t t' : list Row.t) : Prop :=
  Forall2
    (fun r r' => if Z.eqb (Row.id r) link_id then clicked n r r' else r' = r)
    t t'.

(** ** DELETE /api/links/{link_id} *)

(** The DELETE raises when [link_id] does not bind; when it runs, it is
    committed before [rowcount] is looked at. *)
Definition delete_link (link_id : Z) (username : string) (db : DB)
  : DB * response string :=
  if negb (binds link_id) then (db, Raise internal_server_error)
  else
  let rowcount := List.length (filter (has_id link_id) (links db)) in
  let db' :=
    with_links db (filter (fun r => negb (has_id link_id r)) (links db)) in
  if Nat.eqb rowcount 0 then
    (db', Raise {| status_code := 404; detail := "Link not found" |})
  else (db', Return "deleted").

(** ** PUT /api/categories/order *)

Module CategoryOrderUpdate.
Record t := mk { order : list string }.
End CategoryOrderUpdate.

Definition update_category_order (payload : CategoryOrderUpdate.t)
    (username : string) (db : DB) : DB * response (list string) :=
  ({| links := links db;
      links_seq := links_seq db;
      settings :=
        {| hidden_categories_row := hidden_categories_row (settings db);
           category_order_row := Some (CategoryOrderUpdate.order payload) |} |},
   Return (CategoryOrderUpdate.order payload)).

(** ** Sequences of writes *)

(** The requests that write to the catalogue, each with its body. *)
Inductive request : Type :=
| Create (current_timestamp : string) (link : LinkCreate.t)
| Reorder (payload : LinkReorderRequest.t)
| Update (link_id : Z) (link : LinkUpdate.t)
| Click (link_id : Z)
| Delete (link_id : Z)
| Category_order (payload : CategoryOrderUpdate.t).

(** The store a request leaves. *)
Definition handle (username : string) (db : DB) (req : request) : DB :=
  match req with
  | Create current_timestamp link =>
      fst (create_link current_timestamp link username db)
  | Reorder payload => fst (reorder_links payload username db)
  | Update link_id link => fst (update_link link_id link username db)
  | Click link_id => fst (track_click link_id db)
  | Delete link_id => fst (delete_link link_id username db)
  | Category_order payload => fst (update_category_order payload username db)
  end.

Definition handle_all (username : string) (reqs : list request) (db : DB)
  : DB :=
  fold_left (handle username) reqs db.

Definition is_reorder (req : request) : bool :=
  match req with
  | Reorder _ => true
  | _ => false
  end.

(** No two links share an id, and no id is above the AUTOINCREMENT counter. *)
Definition ids_ok (db : DB) : Prop :=
  NoDup (map Row.id (links db))
  /\ Forall (fun r => Row.id r <= links_seq db) (links db).

(** No two links of one category share a [sort_index]. *)
Definition sort_index_unique (t : list Row.t) : Prop :=
  NoDup (map (fun r => (Row.category r, Row.sort_index r)) t).


(** A listed link after one more click on [link_id]. *)
Definition with_click (link_id : Z) (l : LinkResponse.t) : LinkResponse.t :=
  if Z.eqb (LinkResponse.id l) link_id then
    LinkResponse.mk (LinkResponse.id l) (LinkResponse.title l)
      (LinkResponse.url l) (LinkResponse.icon l) (LinkResponse.icon_url l)
      (LinkResponse.description l) (LinkResponse.category l)
      (LinkResponse.is_favorite l) (LinkResponse.sort_index l)
      (LinkResponse.usage_count l + 1) (LinkResponse.created_at l)
  else l.

(** ** The rest of the database *)

Module Settings.
Record t := mk {
  site_title : string;
  site_logo : string;
  hidden_categories : list string;
  category_order : list string
}.
End Settings.

Module LoginRequest.
Record t := mk { password : string }.
End LoginRequest.

Module TokenResponse.
Record t := mk { access_token : string; token_type : string }.
End TokenResponse.

Module ChangePasswordRequest.
Record t := mk { old_password : string; new_password : string }.
End ChangePasswordRequest.

(** The whole database: the catalogue above, the two other rows of
    [settings], the [password_hash] of the row of [admin] whose username is
    "admin" ([None] when there is no such row), and the names of the columns
    of [links] ([None] before the table is created).  A column that the
    table does not have yet holds, in a row, what [ALTER TABLE] will put
    there: NULL, or 0 for [sort_index]. *)
Record Database := {
  catalogue : DB;
  site_title_row : option string;
  site_logo_row : option string;
  admin_password_hash : option string;
  links_columns : option (list string)
}.

Definition with_catalogue (s : Database) (db : DB) : Database :=
  {| catalogue := db;
     site_title_row := site_title_row s;
     site_logo_row := site_logo_row s;
     admin_password_hash := admin_password_hash s;
     links_columns := links_columns s |}.

(** [hashlib.sha256(..).hexdigest()] on the bytes of a string. *)
Class Hashlib := { sha256_hexdigest : string -> string }.

Definition PASSWORD_SALT : string := "dashboard-salt-2024".

Definition hash_password `{Hashlib} (password : string) : string :=
  let salted := String.append password PASSWORD_SALT in
  sha256_hexdigest salted.

Definition verify_password `{Hashlib} (password password_hash : string)
  : bool :=
  String.eqb (hash_password password) password_hash.

(** ** POST /api/auth/login *)

Definition login `{Env} `{Hashlib} (utcnow : Z) (request : LoginRequest.t)
    (s : Database) : response TokenResponse.t :=
  match admin_password_hash s with
  | None => Raise {| status_code := 401; detail := "Invalid password" |}
  | Some password_hash =>
      if negb (verify_password (LoginRequest.password request) password_hash)
      then Raise {| status_code := 401; detail := "Invalid password" |}
      else
        let access_token :=
          create_access_token utcnow {| sub := Some "admin"; exp := None |} in
        Return (TokenResponse.mk access_token "bearer")
  end.

(** ** POST /api/auth/change-password *)

(** With no row for the admin, [row["password_hash"]] fails on [None]. *)
Definition change_password `{Hashlib} (request : ChangePasswordRequest.t)
    (username : string) (s : Database) : Database * response string :=
  match admin_password_hash s with
  | None => (s, Raise internal_server_error)
  | Some password_hash =>
      if negb (verify_password (ChangePasswordRequest.old_password request)
                 password_hash)
      then (s, Raise {| status_code := 400;
                        detail := "Incorrect old password" |})
      else
        let new_hash :=
          hash_password (ChangePasswordRequest.new_password request) in
        ({| catalogue := catalogue s;
            site_title_row := site_title_row s;
            site_logo_row := site_logo_row s;
            admin_password_hash := Some new_hash;
            links_columns := links_columns s |},
         Return "Password changed successfully")
  end.

(** ** GET and PUT /api/settings *)

(** [settings_dict.get(key, default)]. *)
Definition dict_get {A : Type} (row : option A) (default : A) : A :=
  match row with
  | Some v => v
  | None => default
  end.

Definition get_settings (s : Database) : Settings.t :=
  {| Settings.site_title := dict_get (site_title_row s) "JinResearch";
     Settings.site_logo := dict_get (site_logo_row s) "";
     Settings.hidden_categories :=
       dict_get (hidden_categories_row (settings (catalogue s))) [];
     Settings.category_order :=
       dict_get (category_order_row (settings (catalogue s))) [] |}.

Definition update_settings (new : Settings.t) (username : string)
    (s : Database) : Database * response Settings.t :=
  ({| catalogue :=
        {| links := links (catalogue s);
           links_seq := links_seq (catalogue s);
           settings :=
             {| hidden_categories_row :=
                  Some (Settings.hidden_categories new);
                category_order_row := Some (Settings.category_order new) |}
        |};
      site_title_row := Some (Settings.site_title new);
      site_logo_row := Some (Settings.site_logo new);
      admin_password_hash := admin_password_hash s;
      links_columns := links_columns s |},
   Return new).

(** ** The routes that ask for the admin's token *)

(** [Depends(verify_token)]: the route runs with the name [verify_token]
    returns, and not at all when [verify_token] raises. *)
Definition Depends_verify_token `{Env} {State A : Type} (utcnow : Z)
    (creds : HTTPAuthorizationCredentials)
    (route : string -> State -> State * response A) (s : State)
  : State * response A :=
  match verify_token utcnow creds with
  | Return username => route username s
  | Raise e => (s, Raise e)
  end.

(** A route on the catalogue, as a route on the database. *)
Definition on_catalogue {A : Type} (route : DB -> DB * response A)
    (s : Database) : Database * response A :=
  let (db', answer) := route (catalogue s) in
  (with_catalogue s db', answer).

Definition POST_api_links `{Env} (utcnow : Z)
    (creds : HTTPAuthorizationCredentials) (current_timestamp : string)
    (link : LinkCreate.t) : Database -> Database * response LinkResponse.t :=
  Depends_verify_token utcnow creds
    (fun username => on_catalogue (create_link current_timestamp link username)).

Definition PUT_api_links_reorder `{Env} (utcnow : Z)
    (creds : HTTPAuthorizationCredentials) (payload : LinkReorderRequest.t)
  : Database -> Database * response string :=
  Depends_verify_token utcnow creds
    (fun username => on_catalogue (reorder_links payload username)).

Definition PUT_api_links `{Env} (utcnow : Z)
    (creds : HTTPAuthorizationCredentials) (link_id : Z) (link : LinkUpdate.t)
  : Database -> Database * response LinkResponse.t :=
  Depends_verify_token utcnow creds
    (fun username => on_catalogue (update_link link_id link username)).

Definition DELETE_api_links `{Env} (utcnow : Z)
    (creds : HTTPAuthorizationCredentials) (link_id : Z)
  : Database -> Database * response string :=
  Depends_verify_token utcnow creds
    (fun username => on_catalogue (delete_link link_id username)).

Definition PUT_api_categories_order `{Env} (utcnow : Z)
    (creds : HTTPAuthorizationCredentials) (payload : CategoryOrderUpdate.t)
  : Database -> Database * response (list string) :=
  Depends_verify_token utcnow creds
    (fun username => on_catalogue (update_category_order payload username)).

Definition PUT_api_settings `{Env} (utcnow : Z)
    (creds : HTTPAuthorizationCredentials) (new : Settings.t)
  : Database -> Database * response Settings.t :=
  Depends_verify_token utcnow creds (update_settings new).

Definition POST_api_auth_change_password `{Env} `{Hashlib} (utcnow : Z)
    (creds : HTTPAuthorizationCredentials) (request : ChangePasswordRequest.t)
  : Database -> Database * response string :=
  Depends_verify_token utcnow creds (change_password request).

(** ** Startup *)

(** The columns [CREATE TABLE IF NOT EXISTS links] gives a new table. *)
Definition base_columns : list string :=
  ["id"; "title"; "url"; "icon"; "category"; "is_favorite"; "usage_count";
   "created_at"].

(** [ORDER BY created_at ASC, id ASC]. *)
Definition order_by_created_at_id_leb (a b : Row.t) : bool :=
  match String.compare (Row.created_at a) (Row.created_at b) with
  | Lt => true
  | Eq => Z.leb (Row.id a) (Row.id b)
  | Gt => false
  end.

(** [enumerate(l, start=start)]. *)
Fixpoint enumerate {A : Type} (start : Z) (l : list A) : list (Z * A) :=
  match l with
  | [] => []
  | x :: l' => (start, x) :: enumerate (start + 1) l'
  end.

(** The ids of a category, from the earliest link to the latest. *)
Definition ids_by_created_at (category : string) (t : list Row.t) : list Z :=
  map Row.id
    (sort_by order_by_created_at_id_leb (filter (in_category category) t)).

(** The body of [for category in categories] in the backfill. *)
Definition backfill_category (t : list Row.t) (category : string)
  : list Row.t :=
  let ids := ids_by_created_at category t in
  fold_left
    (fun t' (entry : Z * Z) =>
       let (idx, link_id) := entry in
       update_where_id link_id (set_sort_index idx) t')
    (enumerate 1 ids) t.

(** "Backfill sort_index per category by created_at then id". *)
Definition backfill_sort_index (t : list Row.t) : list Row.t :=
  let categories := distinct (map Row.category t) in
  fold_left backfill_category categories t.

(** A tuple of [default_links]: title, url, icon, category, is_favorite,
    description, sort_index. *)
Record default_link := {
  seed_title : string;
  seed_url : string;
  seed_icon : string;
  seed_category : string;
  seed_is_favorite : Z;
  seed_description : string;
  seed_sort_index : Z
}.

Definition default_links : list default_link :=
  [ Build_default_link "Instagram" "https://instagram.com" "instagram"
      "Social Media" 0 "Visual inspiration and photo sharing platform." 1;
    Build_default_link "Twitter (X)" "https://twitter.com" "twitter"
      "Social Media" 0 "Real-time news and public conversation." 2;
    Build_default_link "LinkedIn" "https://linkedin.com" "linkedin"
      "Social Media" 0 "Professional networking and career development." 3;
    Build_default_link "Figma" "https://figma.com" "figma"
      "Design Tools" 0 "Collaborative interface design tool." 1;
    Build_default_link "Dribbble" "https://dribbble.com" "dribbble"
      "Design Tools" 0 "World's leading destination for design inspiration." 2;
    Build_default_link "Behance" "https://behance.net" "behance"
      "Design Tools" 0 "Showcase and discover creative work." 3;
    Build_default_link "The Verge" "https://theverge.com" "theverge"
      "News & Media" 0 "Tech news, reviews, and futuristic features." 1;
    Build_default_link "Medium" "https://medium.com" "medium"
      "News & Media" 0 "A place to read, write, and deepen understanding." 2;
    Build_default_link "YouTube" "https://youtube.com" "youtube"
      "News & Media" 0 "World's most popular video hosting service." 3 ].

(** One [INSERT INTO links (title, url, icon, category, is_favorite,
    description, sort_index)]: the key, [usage_count], [created_at] and
    [icon_url] take their defaults. *)
Definition insert_default_link (current_timestamp : string) (db : DB)
    (seed : default_link) : DB :=
  let link_id := next_rowid db in
  {| links :=
       links db
       ++ [ {| Row.id := link_id;
               Row.title := seed_title seed;
               Row.url := seed_url seed;
               Row.icon := Some (seed_icon seed);
               Row.category := seed_category seed;
               Row.is_favorite := seed_is_favorite seed;
               Row.usage_count := 0;
               Row.created_at := current_timestamp;
               Row.description := Some (seed_description seed);
               Row.icon_url := None;
               Row.sort_index := seed_sort_index seed |} ];
     links_seq := link_id;
     settings := settings db |}.

(** [clock k] is the text of [CURRENT_TIMESTAMP] at the insertion of the
    tuple of index [k]. *)
Definition seed_default_links (clock : nat -> string) (db : DB) : DB :=
  fold_left
    (fun db' (entry : nat * default_link) =>
       let (k, seed) := entry in
       insert_default_link (clock k) db' seed)
    (combine (seq 0 (List.length default_links)) default_links) db.

(** [INSERT OR IGNORE INTO settings]: a row that is there stays. *)
Definition insert_or_ignore {A : Type} (row : option A) (value : A)
  : option A :=
  match row with
  | Some v => Some v
  | None => Some value
  end.

Definition default_site_logo : string :=
  "https://www.gstatic.com/images/branding/product/1x/keep_2020q4_48dp.png".

Definition init_db `{Hashlib} (clock : nat -> string) (s : Database)
  : Database :=
  (* CREATE TABLE IF NOT EXISTS links *)
  let columns := dict_get (links_columns s) base_columns in
  let t0 :=
    match links_columns s with
    | Some _ => links (catalogue s)
    | None => []
    end in
  let seq0 :=
    match links_columns s with
    | Some _ => links_seq (catalogue s)
    | None => 0
    end in
  (* the migrations *)
  let add_description := negb (str_in "description" columns) in
  let add_icon_url := negb (str_in "icon_url" columns) in
  let add_sort_index := negb (str_in "sort_index" columns) in
  let t1 := if add_description then map (set_description None) t0 else t0 in
  let t2 := if add_icon_url then map (set_icon_url None) t1 else t1 in
  let t3 :=
    if add_sort_index then backfill_sort_index (map (set_sort_index 0) t2)
    else t2 in
  let columns' :=
    columns
    ++ (if add_description then ["description"] else [])
    ++ (if add_icon_url then ["icon_url"] else [])
    ++ (if add_sort_index then ["sort_index"] else []) in
  (* the default settings *)
  let seeded :=
    {| hidden_categories_row :=
         insert_or_ignore (hidden_categories_row (settings (catalogue s))) [];
       category_order_row :=
         insert_or_ignore (category_order_row (settings (catalogue s))) [] |}
  in
  (* the default admin *)
  let admin :=
    match admin_password_hash s with
    | Some password_hash => Some password_hash
    | None => Some (hash_password "admin123")
    end in
  (* the default links *)
  let db3 := {| links := t3; links_seq := seq0; settings := seeded |} in
  let db4 :=
    if Nat.eqb (List.length t3) 0 then seed_default_links clock db3
    else db3 in
  {| catalogue := db4;
     site_title_row := insert_or_ignore (site_title_row s) "Aesthetic Nav";
     site_logo_row := insert_or_ignore (site_logo_row s) default_site_logo;
     admin_password_hash := admin;
     links_columns := Some columns' |}.

(** A stand-in for [hashlib] that hashes a text to itself. *)
Definition plain_hashlib : Hashlib := {| sha256_hexdigest := fun s => s |}.

(** A database after startup, with the store [db_hidden] and the password
    "secret" for the admin. *)
Definition database_hidden : Database :=
  {| catalogue := db_hidden;
     site_title_row := Some "Aesthetic Nav";
     site_logo_row := Some "";
     admin_password_hash := Some (@hash_password plain_hashlib "secret");
     links_columns :=
       Some (base_columns ++ ["description"; "icon_url"; "sort_index"]) |}.

(** Where an id stands in a list of ids, counting from 0. *)
Fixpoint index_of (i : Z) (ids : list Z) : option nat :=
  match ids with
  | [] => None
  | j :: ids' =>
      if Z.eqb j i then Some O else option_map S (index_of i ids')
  end.

(** A row after the backfill over the table [t]: numbered by where its id
    stands among the ids of its category. *)
Definition backfilled (t : list Row.t) (r : Row.t) : Row.t :=
  match index_of (Row.id r) (ids_by_created_at (Row.category r) t) with
  | Some k => set_sort_index (1 + Z.of_nat k) r
  | None => r
  end.

(** Three links of an old table, not numbered yet: link 3 is the earliest
    of the category A. *)
Definition table_not_numbered : list Row.t :=
  [sample_row 1 "A" 0 "2024-01-02 00:00:00";
   sample_row 2 "B" 0 "2024-01-01 00:00:00";
   sample_row 3 "A" 0 "2024-01-01 00:00:00"].

(** A database file that has no table yet. *)
Definition database_new : Database :=
  {| catalogue :=
       {| links := [];
          links_seq := 0;
          settings :=
            {| hidden_categories_row := None; category_order_row := None |} |};
     site_title_row := None;
     site_logo_row := None;
     admin_password_hash := None;
     links_columns := None |}.

(** A database of before [sort_index], with the links above. *)
Definition database_old : Database :=
  {| catalogue :=
       {| links := table_not_numbered;
          links_seq := 3;
          settings :=
            {| hidden_categories_row := None; category_order_row := None |} |};
     site_title_row := None;
     site_logo_row := None;
     admin_password_hash := None;
     links_columns := Some (base_columns ++ ["description"; "icon_url"]) |}.

(** ** Limits in the samples *)

(** SQLite built with the limit of 999 parameters. *)
Definition sqlite_999 : Sqlite :=
  {| SQLITE_MAX_VARIABLE_NUMBER := 999; written_statements_fit := eq_refl |}.

(** What [f] makes of the body of an answer. *)
Definition response_map {A B : Type} (f : A -> B) (r : response A)
  : response B :=
  match r with
  | Return a => Return (f a)
  | Raise e => Raise e
  end.









(** An id past the largest integer of SQLite. *)
Definition id_past_the_largest : Z := INT64_MAX + 1.

(** The ids and the [sort_index] values of a batch are integers of
    SQLite. *)
Definition items_in_range (items : list LinkReorderItem.t) : Prop :=
  Forall
    (fun item =>
       binds (LinkReorderItem.id item) = true
       /\ binds (LinkReorderItem.sort_index item) = true)
    items.


(** ** Strings and sorting *)

Lemma ascii_compare_refl (a : ascii) : Ascii.compare a a = Eq.
Proof. unfold Ascii.compare. apply N.compare_refl. Qed.

Lemma ascii_compare_eq (a b : ascii) : Ascii.compare a b = Eq -> a = b.
Proof. apply Ascii.compare_eq_iff. Qed.

Lemma ascii_compare_lt_trans (a b c : ascii) :
  Ascii.compare a b = Lt -> Ascii.compare b c = Lt -> Ascii.compare a c = Lt.
Proof.
  unfold Ascii.compare. rewrite !N.compare_lt_iff. apply N.lt_trans.
Qed.

Lemma str_compare_refl (s : string) : String.compare s s = Eq.
Proof.
  induction s as [|c s IH]; simpl; [reflexivity|].
  now rewrite ascii_compare_refl.
Qed.

Lemma str_compare_eq (a b : string) : String.compare a b = Eq -> a = b.
Proof. apply String.compare_eq_iff. Qed.

Lemma str_lt_trans (a b c : string) : str_lt a b -> str_lt b c -> str_lt a c.
Proof.
  unfold str_lt. revert b c.
  induction a as [|x a IH]; intros [|y b] [|z c]; simpl; try congruence.
  destruct (Ascii.compare x y) eqn:Hxy; try discriminate;
    destruct (Ascii.compare y z) eqn:Hyz; try discriminate; intros Hab Hbc.
  - apply ascii_compare_eq in Hxy, Hyz. subst.
    rewrite ascii_compare_refl. eauto.
  - apply ascii_compare_eq in Hxy. subst. now rewrite Hyz.
  - apply ascii_compare_eq in Hyz. subst. now rewrite Hxy.
  - now rewrite (ascii_compare_lt_trans _ _ _ Hxy Hyz).
Qed.

Lemma str_compare_gt_lt (a b : string) :
  String.compare a b = Gt <-> String.compare b a = Lt.
Proof.
  rewrite (String.compare_antisym b a).
  destruct (String.compare a b); simpl; split; congruence.
Qed.

Lemma str_le_cases (a b : string) : str_le a b <-> str_lt a b \/ a = b.
Proof.
  unfold str_le, str_lt. split.
  - destruct (String.compare a b) eqn:E; intros Hn.
    + right. now apply str_compare_eq.
    + now left.
    + congruence.
  - intros [-> | ->]; [congruence|]. rewrite str_compare_refl. congruence.
Qed.

Lemma str_le_trans (a b c : string) : str_le a b -> str_le b c -> str_le a c.
Proof.
  rewrite !str_le_cases. intros [Hab | ->] [Hbc | ->]; auto.
  left. eapply str_lt_trans; eauto.
Qed.

Lemma str_le_total (a b : string) : str_le a b \/ str_le b a.
Proof.
  unfold str_le. destruct (String.compare a b) eqn:E.
  - left. congruence.
  - left. congruence.
  - right. apply str_compare_gt_lt in E. congruence.
Qed.

Lemma str_leb_le (a b : string) : String.leb a b = true <-> str_le a b.
Proof.
  unfold String.leb, str_le. destruct (String.compare a b); split; congruence.
Qed.

Lemma str_in_In (x : string) (l : list string) : str_in x l = true <-> In x l.
Proof.
  unfold str_in. rewrite existsb_exists. split.
  - intros [y [Hy Heq]]. apply String.eqb_eq in Heq. now subst.
  - intros Hx. exists x. split; [assumption | apply String.eqb_refl].
Qed.

Lemma str_in_not_In (x : string) (l : list string) :
  str_in x l = false <-> ~ In x l.
Proof.
  rewrite <- str_in_In. destruct (str_in x l); split; congruence.
Qed.

Section SortFacts.
Context {A : Type}.
Variable leb : A -> A -> bool.
Hypothesis leb_total : forall a b, leb a b = true \/ leb b a = true.
Hypothesis leb_trans :
  forall a b c, leb a b = true -> leb b c = true -> leb a c = true.

Lemma insert_sorted_perm (x : A) (l : list A) :
  Permutation (x :: l) (insert_sorted leb x l).
Proof.
  induction l as [|y l IH]; simpl; [reflexivity|].
  destruct (leb x y); [reflexivity|].
  rewrite perm_swap. now constructor.
Qed.

Lemma sort_by_perm (l : list A) : Permutation l (sort_by leb l).
Proof.
  induction l as [|x l IH]; simpl; [constructor|].
  rewrite <- insert_sorted_perm. now constructor.
Qed.

Lemma insert_sorted_sorted (x : A) (l : list A) :
  StronglySorted (fun a b => leb a b = true) l ->
  StronglySorted (fun a b => leb a b = true) (insert_sorted leb x l).
Proof.
  induction 1 as [|y l Hs IH Hall]; simpl.
  - repeat constructor.
  - destruct (leb x y) eqn:Hxy.
    + constructor; [now constructor|].
      constructor; [assumption|].
      eapply Forall_impl; [|exact Hall]. intros z Hz. eauto.
    + constructor; [assumption|].
      assert (Hyx : leb y x = true)
        by (destruct (leb_total x y); congruence).
      eapply Permutation_Forall; [apply insert_sorted_perm|].
      now constructor.
Qed.

Lemma sort_by_sorted (l : list A) :
  StronglySorted (fun a b => leb a b = true) (sort_by leb l).
Proof.
  induction l as [|x l IH]; simpl; [constructor|].
  now apply insert_sorted_sorted.
Qed.
End SortFacts.

(** ** The order of [get_links] *)





Lemma StronglySorted_map {A B : Type} (f : A -> B) (R : A -> A -> Prop)
    (S : B -> B -> Prop) (l : list A) :
  (forall a b, R a b -> S (f a) (f b)) ->
  StronglySorted R l -> StronglySorted S (map f l).
Proof.
  intros HRS. induction 1 as [|x l Hs IH Hall]; simpl; constructor.
  - assumption.
  - apply Forall_map. eapply Forall_impl; [|exact Hall]. auto.
Qed.

Lemma get_links_rows_perm (db : DB) (category : option string)
    (favorite : option bool) (current_user : option string) :
  Permutation
    (filter (get_links_where (hidden_categories_of db) category favorite
               current_user) (links db))
    (get_links_rows db category favorite current_user).
Proof. apply sort_by_perm. Qed.



Lemma binds_false_iff (z : Z) :
  binds z = false <-> z < INT64_MIN \/ INT64_MAX < z.
Proof.
  unfold binds. rewrite andb_false_iff, !Z.leb_gt. tauto.
Qed.

Lemma get_links_params_length (hidden : list string)
    (category : option string) (favorite : option bool)
    (current_user : option string) :
  Z.of_nat (List.length (get_links_params hidden category favorite
                           current_user))
  <= (if truthy_opt_str current_user then 0
      else Z.of_nat (List.length hidden)) + 2.
Proof.
  unfold get_links_params. rewrite !length_app.
  destruct (truthy_opt_str current_user); cbn [negb andb].
  - destruct (truthy_opt_str category), category, favorite; simpl; lia.
  - destruct (truthy_list hidden); rewrite ?length_map;
      destruct (truthy_opt_str category), category, favorite; simpl; lia.
Qed.

(** [get_links] answers with the rows of its query, but for a caller
    without identity and a hidden list too long for one statement. *)
Lemma get_links_cases `{Sqlite} (db : DB) (category : option string)
    (favorite : option bool) (current_user : option string) :
  get_links db category favorite current_user
  = Return
      (map LinkResponse_of_row
         (get_links_rows db category favorite current_user))
  \/ (get_links db category favorite current_user
      = Raise internal_server_error
      /\ truthy_opt_str current_user = false
      /\ SQLITE_MAX_VARIABLE_NUMBER - 2
         < Z.of_nat (List.length (hidden_categories_of db))).
Proof.
  unfold get_links.
  pose proof (get_links_params_length (hidden_categories_of db) category
                favorite current_user) as Hlen.
  pose proof written_statements_fit as Hfit. apply Z.leb_le in Hfit.
  destruct (SQLITE_MAX_VARIABLE_NUMBER <? _) eqn:E; [|now left].
  apply Z.ltb_lt in E. right. split; [reflexivity|].
  destruct (truthy_opt_str current_user); [lia|]. split; [reflexivity | lia].
Qed.

Lemma get_links_Return `{Sqlite} (db : DB) (category : option string)
    (favorite : option bool) (current_user : option string)
    (listed : list LinkResponse.t) :
  get_links db category favorite current_user = Return listed ->
  listed
  = map LinkResponse_of_row
      (get_links_rows db category favorite current_user).
Proof.
  unfold get_links. destruct (SQLITE_MAX_VARIABLE_NUMBER <? _);
    [discriminate|].
  intros Heq. now injection Heq as <-.
Qed.

Lemma get_links_returns `{Sqlite} (db : DB) (category : option string)
    (favorite : option bool) (current_user : option string) :
  truthy_opt_str current_user = true
  \/ Z.of_nat (List.length (hidden_categories_of db)) + 2
     <= SQLITE_MAX_VARIABLE_NUMBER ->
  get_links db category favorite current_user
  = Return
      (map LinkResponse_of_row
         (get_links_rows db category favorite current_user)).
Proof.
  intros Hfits.
  destruct (get_links_cases db category favorite current_user)
    as [Hret | [_ [Huser Hlong]]]; [exact Hret|].
  exfalso. destruct Hfits as [Hu | Hfits]; [congruence | lia].
Qed.



(** ** Who sees the hidden categories *)

Lemma get_current_user_optional_admin `{Env} (utcnow : Z)
    (authorization : option string) (u : string) :
  get_current_user_optional utcnow authorization = Some u -> u = "admin".
Proof.
  unfold get_current_user_optional.
  destruct (negb (truthy_opt_str authorization)); [discriminate|].
  destruct authorization as [header|]; [|discriminate].
  destruct (partition_space header) as [sch token].
  destruct (negb (String.eqb (lower sch) "bearer")); [discriminate|].
  destruct (jwt_decode utcnow token SECRET_KEY [ALGORITHM]) as [payload|];
    [|discriminate].
  destruct (sub payload) as [username|]; [|discriminate].
  destruct (String.eqb username "admin") eqn:E; [|discriminate].
  apply String.eqb_eq in E. congruence.
Qed.

Lemma get_links_where_admin (hidden : list string) (category : option string)
    (favorite : option bool) (r : Row.t) :
  get_links_where hidden category favorite (Some "admin") r
  = matches_filters category favorite r.
Proof.
  unfold get_links_where, matches_filters, truthy_opt_str, truthy_str.
  simpl. f_equal.
  - destruct category as [c|]; [|reflexivity].
    destruct (String.eqb c ""); reflexivity.
  - destruct favorite as [[|]|]; reflexivity.
Qed.


Lemma partition_space_scheme (sch lowered token : string) :
  lower sch = lowered ->
  (forall s1 s2, lowered <> String.append s1 (String " " s2)) ->
  partition_space (String.append sch (String " " token)) = (sch, token).
Proof.
  revert lowered. induction sch as [|c sch IH]; intros lowered Hlow Hnospace.
  - reflexivity.
  - simpl in Hlow. subst lowered. simpl.
    destruct (Ascii.eqb c " ") eqn:Hc.
    + apply Ascii.eqb_eq in Hc. subst c. exfalso.
      apply (Hnospace EmptyString (lower sch)). reflexivity.
    + rewrite (IH (lower sch) eq_refl); [reflexivity|].
      intros s1 s2 Heq.
      apply (Hnospace (String (lower_ascii c) s1) s2). simpl. now rewrite Heq.
Qed.

Lemma bearer_has_no_space (s1 s2 : string) :
  "bearer" <> String.append s1 (String " " s2).
Proof.
  intros Heq.
  repeat (destruct s1 as [|? s1]; simpl in Heq; [discriminate Heq|];
          injection Heq as _ Heq).
  destruct s1; discriminate Heq.
Qed.

Lemma get_current_user_optional_bearer `{Env} (utcnow : Z)
    (sch token : string) :
  lower sch = "bearer" ->
  get_current_user_optional utcnow
    (Some (String.append sch (String " " token)))
  = match verify_token utcnow {| scheme := sch; credentials := token |} with
    | Return username => Some username
    | Raise _ => None
    end.
Proof.
  intros Hsch. unfold get_current_user_optional, verify_token.
  assert (Htruthy :
    truthy_opt_str (Some (String.append sch (String " " token))) = true).
  { destruct sch; [discriminate Hsch | reflexivity]. }
  rewrite Htruthy. cbn [negb].
  rewrite (partition_space_scheme sch "bearer" token Hsch
             bearer_has_no_space).
  rewrite Hsch. cbn [String.eqb negb credentials].
  destruct (jwt_decode utcnow token SECRET_KEY [ALGORITHM]) as [payload|];
    [|reflexivity].
  destruct (sub payload) as [username|]; [|reflexivity].
  now destruct (String.eqb username "admin").
Qed.






Lemma admin_rows (db : DB) (category : option string)
    (favorite : option bool) :
  Permutation (get_links_rows db category favorite (Some "admin"))
    (filter (matches_filters category favorite) (links db)).
Proof.
  symmetry. rewrite <- get_links_rows_perm.
  erewrite filter_ext; [reflexivity|].
  intros r. symmetry. apply get_links_where_admin.
Qed.



(** Both cases of C2 occur: over the same store, a request with no header
    gets the public link only, a request with the admin's token gets both. *)
Example hidden_categories_by_caller_sample :
  response_map (map LinkResponse.category)
    (@GET_api_links one_token_env sqlite_999 0 None None None db_hidden)
  = Return ["Public"]
  /\ response_map (map LinkResponse.category)
       (@GET_api_links one_token_env sqlite_999 0 (Some "Bearer signed")
          None None db_hidden)
     = Return ["Private"; "Public"].
Proof. split; reflexivity. Qed.

(** ** The categories *)

Lemma distinct_In (x : string) (l : list string) :
  In x (distinct l) <-> In x l.
Proof.
  induction l as [|y l IH]; simpl; [tauto|].
  destruct (str_in y l) eqn:Hy.
  - apply str_in_In in Hy. rewrite IH. split; [tauto|].
    intros [-> | Hx]; assumption.
  - simpl. rewrite IH. tauto.
Qed.

Lemma distinct_NoDup (l : list string) : NoDup (distinct l).
Proof.
  induction l as [|y l IH]; simpl; [constructor|].
  destruct (str_in y l) eqn:Hy; [assumption|].
  constructor; [|assumption].
  rewrite distinct_In. now apply str_in_not_In.
Qed.

Lemma sorted_perm (l : list string) : Permutation l (sorted l).
Proof. apply sort_by_perm. Qed.

Lemma sorted_sorted (l : list string) : StronglySorted str_le (sorted l).
Proof.
  rewrite <- (map_id (sorted l)).
  eapply StronglySorted_map with (R := fun a b => String.leb a b = true).
  - intros a b. apply str_leb_le.
  - apply sort_by_sorted.
    + intros a b. rewrite !str_leb_le. apply str_le_total.
    + intros a b c. rewrite !str_leb_le. apply str_le_trans.
Qed.

Lemma present_distinct (db : DB) (c : string) :
  In c (distinct (map Row.category (links db))) <-> present db c.
Proof.
  rewrite distinct_In, in_map_iff. unfold present.
  split; intros [row [H1 H2]]; exists row; tauto.
Qed.

(** What [get_categories] returns, for every store: first the names of the
    stored order that some link has, as the order has them; then, sorted and
    without repetition, the categories the order does not name. *)
Lemma get_categories_shape (db : DB) :
  exists remaining,
    get_categories db
    = filter (fun c => str_in c (distinct (map Row.category (links db))))
        (category_order_of db)
      ++ remaining
    /\ StronglySorted str_le remaining
    /\ NoDup remaining
    /\ (forall c, In c remaining
                  <-> present db c /\ ~ In c (category_order_of db)).
Proof.
  unfold get_categories.
  set (categories := distinct (map Row.category (links db))).
  set (ordered := filter (fun cat => str_in cat categories)
                    (category_order_of db)).
  exists (sorted (filter (fun cat => negb (str_in cat ordered)) categories)).
  split; [reflexivity|]. split; [apply sorted_sorted|]. split.
  - eapply Permutation_NoDup; [apply sorted_perm|].
    apply NoDup_filter, distinct_NoDup.
  - intros c. rewrite <- present_distinct. fold categories. split.
    + intros Hc. eapply Permutation_in in Hc;
        [|symmetry; apply sorted_perm].
      apply filter_In in Hc. destruct Hc as [Hc Hn]. split; [assumption|].
      apply negb_true_iff, str_in_not_In in Hn. intros Ho. apply Hn.
      unfold ordered. apply filter_In. split; [assumption|].
      now apply str_in_In.
    + intros [Hc Hn]. eapply Permutation_in; [apply sorted_perm|].
      apply filter_In. split; [assumption|].
      apply negb_true_iff, str_in_not_In. intros Ho. apply Hn.
      unfold ordered in Ho. apply filter_In in Ho. tauto.
Qed.

Lemma get_categories_In (db : DB) (c : string) :
  In c (get_categories db) <-> present db c.
Proof.
  destruct (get_categories_shape db) as [remaining [-> [_ [_ Hrem]]]].
  rewrite in_app_iff, filter_In, Hrem, str_in_In, present_distinct.
  split; [tauto|]. intros Hc.
  destruct (in_dec string_dec c (category_order_of db)); tauto.
Qed.

(** When the stored order names no category twice, neither does the
    answer. *)
Lemma get_categories_NoDup (db : DB) :
  NoDup (category_order_of db) -> NoDup (get_categories db).
Proof.
  intros Hnd.
  destruct (get_categories_shape db) as [remaining [-> [_ [Hr Hrem]]]].
  apply NoDup_app; [now apply NoDup_filter | assumption |].
  intros c Hc Hc'. apply filter_In in Hc. apply Hrem in Hc'. tauto.
Qed.

(** C3 (as the specification words it) fails: to a request without a token,
    [GET /api/categories] names a category of the stored hidden set. *)
Lemma get_categories_names_hidden_category :
  @get_current_user_optional one_token_env 0 None = None
  /\ In "Private" (hidden_categories_of db_hidden)
  /\ In "Private" (@GET_api_categories one_token_env 0 None db_hidden).
Proof.
  split; [reflexivity|]. split; simpl; auto.
Qed.

(** C3 (as the code has it): [GET /api/categories] resolves no identity and
    filters nothing: for every request, whatever its [Authorization] header
    and whatever the stored hidden set, it names exactly the categories
    that some link has. *)
Theorem get_categories_same_for_every_caller `{Env} (utcnow : Z)
    (authorization : option string) (db : DB) :
  GET_api_categories utcnow authorization db
  = GET_api_categories utcnow None db
  /\ (forall c, In c (GET_api_categories utcnow authorization db)
                <-> present db c)
  /\ (forall hidden,
        GET_api_categories utcnow authorization
          {| links := links db; links_seq := links_seq db;
             settings :=
               {| hidden_categories_row := hidden;
                  category_order_row := category_order_row (settings db) |} |}
        = GET_api_categories utcnow authorization db).
Proof.
  split; [reflexivity|]. split; [|reflexivity].
  intros c. apply get_categories_In.
Qed.

(** C8, the sample of the specification: links in the categories A, B and C
    and the order B, A. *)
Example get_categories_B_A_C : get_categories db_A_B_C = ["B"; "A"; "C"].
Proof. reflexivity. Qed.

(** C8 at a stored order that names a category twice: one link, in the
    category A, and the order A, A.  [get_categories] answers A twice, which
    is not the distinct categories among the links. *)
Theorem get_categories_repeats_repeated_order :
  get_categories db_order_names_A_twice = ["A"; "A"]
  /\ ~ NoDup (get_categories db_order_names_A_twice).
Proof.
  split; [reflexivity|].
  intros Hnd. inversion Hnd as [|x l Hnotin _]; subst.
  apply Hnotin. simpl. auto.
Qed.

(** ** Appending to a category *)

Lemma max_list_spec (l : list Z) :
  match max_list l with
  | None => l = []
  | Some m => In m l /\ Forall (fun x => x <= m) l
  end.
Proof.
  induction l as [|x l IH]; simpl; [reflexivity|].
  destruct (max_list l) as [m|].
  - destruct IH as [Hin Hall]. split.
    + destruct (Z.max_spec x m) as [[_ ->] | [_ ->]]; auto.
    + constructor; [lia|].
      eapply Forall_impl; [|exact Hall]. simpl. intros; lia.
  - subst l. split; [now left|]. repeat constructor. lia.
Qed.


Lemma in_category_true (c : string) (r : Row.t) :
  in_category c r = true <-> Row.category r = c.
Proof. unfold in_category. apply String.eqb_eq. Qed.

(** [COALESCE(MAX(sort_index), 0)] over a category: 0 when no link has
    the category, the largest [sort_index] of its links otherwise. *)
Lemma max_sort_index_spec (db : DB) (c : string) :
  (~ present db c /\ max_sort_index c (links db) = 0)
  \/ largest_sort_index db c (max_sort_index c (links db)).
Proof.
  unfold max_sort_index, largest_sort_index, present.
  pose proof (max_list_spec
                (map Row.sort_index (filter (in_category c) (links db))))
    as Hm.
  destruct (max_list _) as [m|]; simpl.
  - right. destruct Hm as [Hin Hall]. split.
    + apply in_map_iff in Hin. destruct Hin as [row [Hs Hrow]].
      apply filter_In in Hrow. destruct Hrow as [Hrow Hc].
      apply in_category_true in Hc. eauto.
    + intros row Hrow Hc. rewrite Forall_forall in Hall. apply Hall.
      apply in_map. apply filter_In. split; [assumption|].
      now apply in_category_true.
  - left. split; [|reflexivity]. intros [row [Hin Hc]].
    apply map_eq_nil in Hm.
    assert (Hf : In row (filter (in_category c) (links db)))
      by (apply filter_In; split; [assumption | now apply in_category_true]).
    rewrite Hm in Hf. contradiction.
Qed.



Lemma find_snoc_fresh {A : Type} (f : A -> bool) (l : list A) (x : A) :
  (forall y, In y l -> f y = false) -> find f (l ++ [x]) = find f [x].
Proof.
  induction l as [|y l IH]; intros Hl; [reflexivity|].
  simpl. rewrite (Hl y) by now left.
  apply IH. intros z Hz. apply Hl. now right.
Qed.

Lemma next_rowid_fresh (db : DB) (row : Row.t) :
  In row (links db) -> has_id (next_rowid db) row = false.
Proof.
  intros Hin. unfold has_id, next_rowid. apply Z.eqb_neq.
  pose proof (max_list_spec (map Row.id (links db))) as Hm.
  destruct (max_list _) as [m|]; simpl.
  - destruct Hm as [_ Hall]. rewrite Forall_forall in Hall.
    specialize (Hall (Row.id row) (in_map _ _ _ Hin)). lia.
  - apply map_eq_nil in Hm. rewrite Hm in Hin. contradiction.
Qed.




(** What [create_link] does to the store and what it answers, when the
    INSERT runs. *)
Lemma create_link_runs (current_timestamp : string) (link : LinkCreate.t)
    (username : string) (db : DB) :
  binds (max_sort_index (LinkCreate.category link) (links db) + 1) = true ->
  binds (next_rowid db) = true ->
  let inserted :=
    {| Row.id := next_rowid db;
       Row.title := LinkCreate.title link;
       Row.url := LinkCreate.url link;
       Row.icon := LinkCreate.icon link;
       Row.icon_url := LinkCreate.icon_url link;
       Row.category := LinkCreate.category link;
       Row.is_favorite := if LinkCreate.is_favorite link then 1 else 0;
       Row.description := LinkCreate.description link;
       Row.sort_index :=
         max_sort_index (LinkCreate.category link) (links db) + 1;
       Row.usage_count := 0;
       Row.created_at := current_timestamp |} in
  create_link current_timestamp link username db
  = ({| links := links db ++ [inserted];
        links_seq := next_rowid db;
        settings := settings db |},
     Return (LinkResponse_of_row inserted)).
Proof.
  intros Hsort Hid inserted. unfold create_link. rewrite Hsort, Hid.
  cbn [negb]. fold inserted.
  unfold fetch_by_id. cbn [links].
  rewrite find_snoc_fresh by (intros y Hy; now apply next_rowid_fresh).
  simpl. unfold has_id. cbn [Row.id inserted]. now rewrite Z.eqb_refl.
Qed.

(** When the INSERT raises, [create_link] answers 500 and writes nothing. *)
Lemma create_link_raises (current_timestamp : string) (link : LinkCreate.t)
    (username : string) (db : DB) :
  binds (max_sort_index (LinkCreate.category link) (links db) + 1) = false
  \/ binds (next_rowid db) = false ->
  create_link current_timestamp link username db
  = (db, Raise internal_server_error).
Proof.
  intros Hfails. unfold create_link.
  destruct (binds (max_sort_index _ _ + 1)); [|reflexivity].
  destruct Hfails as [Hf | ->]; [discriminate | reflexivity].
Qed.

Lemma create_link_cases (current_timestamp : string) (link : LinkCreate.t)
    (username : string) (db : DB) :
  create_link current_timestamp link username db
  = (db, Raise internal_server_error)
  \/ (binds (max_sort_index (LinkCreate.category link) (links db) + 1) = true
      /\ binds (next_rowid db) = true).
Proof.
  destruct (binds (max_sort_index (LinkCreate.category link) (links db) + 1))
    eqn:Hsort;
    [|left; apply create_link_raises; now left].
  destruct (binds (next_rowid db)) eqn:Hid;
    [|left; apply create_link_raises; now right].
  now right.
Qed.






(** ** Updating a link *)

Lemma assign_id (r : Row.t) (a : assignment) : Row.id (assign r a) = Row.id r.
Proof. destruct a; reflexivity. Qed.

Lemma fold_assign_id (updates : list assignment) (r : Row.t) :
  Row.id (fold_left assign updates r) = Row.id r.
Proof.
  revert r. induction updates as [|a updates IH]; intros r; simpl;
    [reflexivity|].
  now rewrite IH, assign_id.
Qed.

Lemma fetch_by_id_update (i : Z) (f : Row.t -> Row.t) (t : list Row.t) :
  (forall r, Row.id (f r) = Row.id r) ->
  fetch_by_id i (update_where_id i f t) = option_map f (fetch_by_id i t).
Proof.
  intros Hf. unfold fetch_by_id, update_where_id.
  induction t as [|r t IH]; simpl; [reflexivity|].
  destruct (has_id i r) eqn:Hr.
  - unfold has_id in *. now rewrite Hf, Hr.
  - now rewrite Hr.
Qed.


Lemma update_where_id_absent (i : Z) (f : Row.t -> Row.t) (t : list Row.t) :
  (~ exists row, In row t /\ Row.id row = i) -> update_where_id i f t = t.
Proof.
  intros Hn. unfold update_where_id.
  rewrite <- (map_id t) at 2. apply map_ext_in. intros r Hr.
  destruct (has_id i r) eqn:Hid; [|reflexivity].
  apply Z.eqb_eq in Hid. exfalso. apply Hn. eauto.
Qed.

Lemma with_links_same (db : DB) : with_links db (links db) = db.
Proof. destruct db; reflexivity. Qed.

Lemma build_updates_nil (link : LinkUpdate.t) (existing_category : string)
    (t : list Row.t) :
  build_updates link existing_category t = [] <-> link = empty_update.
Proof.
  split.
  - destruct link as [[?|] [?|] [?|] [?|] [?|] [?|] [?|]];
      unfold build_updates; simpl; try discriminate; reflexivity.
  - intros ->. reflexivity.
Qed.

Lemma build_updates_effect (link : LinkUpdate.t) (existing_category : string)
    (t : list Row.t) (r : Row.t) :
  let r' := fold_left assign (build_updates link existing_category t) r in
  Row.category r'
  = match LinkUpdate.category link with
    | Some c => c
    | None => Row.category r
    end
  /\ Row.sort_index r'
     = match LinkUpdate.category link with
       | Some c =>
           if String.eqb c existing_category then Row.sort_index r
           else max_sort_index c t + 1
       | None => Row.sort_index r
       end
  /\ Row.usage_count r' = Row.usage_count r
  /\ Row.created_at r' = Row.created_at r.
Proof.
  destruct link as [[?|] [?|] [?|] [?|] [?|] [c|] [?|]];
    unfold build_updates; simpl;
    try destruct (String.eqb c existing_category); simpl; auto.
Qed.


(** An [update_link] that gets past its checks rewrites the rows of that id
    and answers the first of them. *)
Lemma update_link_eq (link_id : Z) (link : LinkUpdate.t) (username : string)
    (db : DB) (existing : Row.t) :
  binds link_id = true ->
  fetch_by_id link_id (links db) = Some existing ->
  link <> empty_update ->
  let updates := build_updates link (Row.category existing) (links db) in
  forallb assignment_binds updates = true ->
  update_link link_id link username db
  = (with_links db
       (update_where_id link_id (fun r => fold_left assign updates r)
          (links db)),
     Return (LinkResponse_of_row (fold_left assign updates existing))).
Proof.
  intros Hid Hex Hne updates Hbind. unfold update_link.
  rewrite Hid, Hex. cbn [negb]. fold updates. rewrite Hbind. cbn [negb].
  destruct updates as [|a updates'] eqn:Hu.
  - exfalso. apply Hne. unfold updates in Hu.
    now apply build_updates_nil in Hu.
  - cbn [truthy_list negb]. cbn [with_links links].
    rewrite fetch_by_id_update by (intros r; apply fold_assign_id).
    now rewrite Hex.
Qed.

Lemma update_link_absent (link_id : Z) (link : LinkUpdate.t)
    (username : string) (db : DB) :
  binds link_id = true ->
  fetch_by_id link_id (links db) = None ->
  update_link link_id link username db
  = (db, Raise {| status_code := 404; detail := "Link not found" |}).
Proof. intros Hid Hn. unfold update_link. now rewrite Hid, Hn. Qed.

Lemma update_link_empty (link_id : Z) (username : string) (db : DB)
    (existing : Row.t) :
  binds link_id = true ->
  fetch_by_id link_id (links db) = Some existing ->
  update_link link_id empty_update username db
  = (db, Raise {| status_code := 400; detail := "No fields to update" |}).
Proof. intros Hid Hex. unfold update_link. now rewrite Hid, Hex. Qed.

Lemma update_link_unbound (link_id : Z) (link : LinkUpdate.t)
    (username : string) (db : DB) :
  binds link_id = false ->
  update_link link_id link username db = (db, Raise internal_server_error).
Proof. intros Hid. unfold update_link. now rewrite Hid. Qed.

(** The UPDATE raises on a parameter that does not bind. *)
Lemma update_link_overflows (link_id : Z) (link : LinkUpdate.t)
    (username : string) (db : DB) (existing : Row.t) :
  binds link_id = true ->
  fetch_by_id link_id (links db) = Some existing ->
  forallb assignment_binds
    (build_updates link (Row.category existing) (links db)) = false ->
  update_link link_id link username db = (db, Raise internal_server_error).
Proof.
  intros Hid Hex Hbind. unfold update_link. rewrite Hid, Hex. cbn [negb].
  rewrite Hbind.
  destruct (build_updates link (Row.category existing) (links db));
    [discriminate Hbind | reflexivity].
Qed.

(** Every way [update_link] goes. *)
Lemma update_link_cases (link_id : Z) (link : LinkUpdate.t)
    (username : string) (db : DB) :
  (binds link_id = false
   /\ update_link link_id link username db
      = (db, Raise internal_server_error))
  \/ (binds link_id = true
      /\ fetch_by_id link_id (links db) = None
      /\ update_link link_id link username db
         = (db, Raise {| status_code := 404; detail := "Link not found" |}))
  \/ (exists existing,
        binds link_id = true
        /\ fetch_by_id link_id (links db) = Some existing
        /\ ((link = empty_update
             /\ update_link link_id link username db
                = (db,
                   Raise {| status_code := 400;
                            detail := "No fields to update" |}))
            \/ (link <> empty_update
                /\ forallb assignment_binds
                     (build_updates link (Row.category existing) (links db))
                   = false
                /\ update_link link_id link username db
                   = (db, Raise internal_server_error))
            \/ (link <> empty_update
                /\ forallb assignment_binds
                     (build_updates link (Row.category existing) (links db))
                   = true
                /\ update_link link_id link username db
                   = (with_links db
                        (update_where_id link_id
                           (fun r =>
                              fold_left assign
                                (build_updates link (Row.category existing)
                                   (links db)) r)
                           (links db)),
                      Return
                        (LinkResponse_of_row
                           (fold_left assign
                              (build_updates link (Row.category existing)
                                 (links db)) existing)))))).
Proof.
  destruct (binds link_id) eqn:Hid;
    [|left; split; [reflexivity | now apply update_link_unbound]].
  right.
  destruct (fetch_by_id link_id (links db)) as [existing|] eqn:Hex;
    [|left; split; [reflexivity|];
      split; [reflexivity | now apply update_link_absent]].
  right. exists existing. split; [reflexivity|]. split; [reflexivity|].
  destruct (build_updates link (Row.category existing) (links db))
    as [|a updates] eqn:Hu.
  - left. apply build_updates_nil in Hu. subst link.
    split; [reflexivity|]. eapply update_link_empty; eauto.
  - right.
    assert (Hne : link <> empty_update) by (intros ->; discriminate Hu).
    rewrite <- Hu.
    destruct (forallb assignment_binds
                (build_updates link (Row.category existing) (links db)))
      eqn:Hbind.
    + right. split; [exact Hne|]. split; [reflexivity|].
      now apply update_link_eq.
    + left. split; [exact Hne|]. split; [reflexivity|].
      eapply update_link_overflows; eauto.
Qed.







(** ** Reordering *)

Lemma reordered_id (items : list LinkReorderItem.t) (r : Row.t) :
  Row.id (reordered items r) = Row.id r.
Proof.
  unfold reordered. destruct (last_item_for (Row.id r) items); reflexivity.
Qed.

Lemma reordered_snoc (items : list LinkReorderItem.t)
    (item : LinkReorderItem.t) (r : Row.t) :
  reordered (items ++ [item]) r
  = if has_id (LinkReorderItem.id item) (reordered items r)
    then set_sort_index (LinkReorderItem.sort_index item)
           (set_category (LinkReorderItem.category item) (reordered items r))
    else reordered items r.
Proof.
  unfold has_id. rewrite reordered_id.
  unfold reordered at 1. unfold last_item_for.
  rewrite rev_app_distr. simpl.
  rewrite (Z.eqb_sym (LinkReorderItem.id item) (Row.id r)).
  destruct (Row.id r =? LinkReorderItem.id item) eqn:Hid.
  - unfold reordered, last_item_for.
    destruct (find _ (rev items)); reflexivity.
  - reflexivity.
Qed.

Lemma fold_reorder_item (items : list LinkReorderItem.t) (t : list Row.t) :
  fold_left reorder_item items t = map (reordered items) t.
Proof.
  induction items as [|item items IH] using rev_ind.
  - simpl. unfold reordered, last_item_for. simpl. now rewrite map_id.
  - rewrite fold_left_app. simpl. rewrite IH.
    unfold reorder_item, update_where_id. rewrite map_map.
    apply map_ext. intros r. now rewrite reordered_snoc.
Qed.



(** The loop of [reorder_links] runs to its end on a batch of integers of
    SQLite, and on no other. *)
Lemma reorder_loop_spec (items : list LinkReorderItem.t) (t : list Row.t) :
  (items_in_range items
   /\ reorder_loop items t = Some (fold_left reorder_item items t))
  \/ (~ items_in_range items /\ reorder_loop items t = None).
Proof.
  revert t. induction items as [|item items IH]; intros t.
  - left. split; [constructor | reflexivity].
  - cbn [reorder_loop fold_left].
    destruct (binds (LinkReorderItem.sort_index item)) eqn:Hs;
      destruct (binds (LinkReorderItem.id item)) eqn:Hi; cbn [andb];
      try (right; split; [|reflexivity];
           intros Hall; inversion Hall as [|? ? [Hi' Hs'] _]; congruence).
    destruct (IH (reorder_item t item)) as [[Hall Heq] | [Hnot Heq]].
    + left. split; [constructor; auto | exact Heq].
    + right. split; [|exact Heq].
      intros Hall. inversion Hall; subst. contradiction.
Qed.

Lemma reorder_links_eq (payload : LinkReorderRequest.t) (username : string)
    (db : DB) :
  LinkReorderRequest.items payload <> [] ->
  items_in_range (LinkReorderRequest.items payload) ->
  reorder_links payload username db
  = (with_links db
       (map (reordered (LinkReorderRequest.items payload)) (links db)),
     Return "ok").
Proof.
  intros Hne Hrange. unfold reorder_links.
  destruct (reorder_loop_spec (LinkReorderRequest.items payload) (links db))
    as [[_ ->] | [Hnot _]]; [|contradiction].
  destruct (LinkReorderRequest.items payload) as [|item items] eqn:Hitems;
    [contradiction|].
  cbn [truthy_list negb]. now rewrite fold_reorder_item.
Qed.

(** A batch with an id or a [sort_index] that does not bind is answered
    500 and nothing of it is kept. *)
Lemma reorder_links_overflows (payload : LinkReorderRequest.t)
    (username : string) (db : DB) :
  LinkReorderRequest.items payload <> [] ->
  ~ items_in_range (LinkReorderRequest.items payload) ->
  reorder_links payload username db = (db, Raise internal_server_error).
Proof.
  intros Hne Hnot. unfold reorder_links.
  destruct (reorder_loop_spec (LinkReorderRequest.items payload) (links db))
    as [[Hrange _] | [_ ->]]; [contradiction|].
  destruct (LinkReorderRequest.items payload) as [|item items] eqn:Hitems;
    [contradiction | reflexivity].
Qed.











(** The sample of C6 on a store that lists link 7 before link 5. *)
Example reorder_5_7_sample :
  response_map (map LinkResponse.id)
    (@get_links sqlite_999 db_5_and_7 None None None)
  = Return [7; 5]
  /\ response_map (map LinkResponse.id)
       (@get_links sqlite_999
          (fst (reorder_links reorder_5_7 "admin" db_5_and_7))
          (Some "A") None None)
     = Return [5; 7].
Proof. split; reflexivity. Qed.


(** ** Counting clicks *)

Lemma Forall2_map_self {A : Type} (R : A -> A -> Prop) (f : A -> A)
    (l : list A) :
  (forall x, R x (f x)) -> Forall2 R l (map f l).
Proof. intros HR. induction l; simpl; constructor; auto. Qed.

Lemma track_click_eq (link_id : Z) (db : DB) :
  binds link_id = true ->
  track_click link_id db
  = (with_links db
       (update_where_id link_id
          (fun r => set_usage_count (Row.usage_count r + 1) r)
          (links db)),
     Return "ok").
Proof. intros Hid. unfold track_click. now rewrite Hid. Qed.

Lemma track_click_unbound (link_id : Z) (db : DB) :
  binds link_id = false ->
  track_click link_id db = (db, Raise internal_server_error).
Proof. intros Hid. unfold track_click. now rewrite Hid. Qed.

Lemma track_clicks_links (n : nat) (link_id : Z) (db : DB) :
  binds link_id = true ->
  links (track_clicks n link_id db)
  = map (fun r =>
           if has_id link_id r
           then set_usage_count (Row.usage_count r + Z.of_nat n) r
           else r)
      (links db).
Proof.
  intros Hid. revert db. induction n as [|n IH]; intros db.
  - simpl. rewrite <- (map_id (links db)) at 1. apply map_ext.
    intros r. destruct (has_id link_id r); [|reflexivity].
    destruct r. unfold set_usage_count. simpl. f_equal. lia.
  - cbn [track_clicks]. rewrite IH, track_click_eq by exact Hid.
    cbn [fst with_links links].
    unfold update_where_id. rewrite map_map. apply map_ext. intros r.
    destruct (has_id link_id r) eqn:Hr.
    + unfold has_id, set_usage_count in *. cbn [Row.id Row.usage_count].
      rewrite Hr. f_equal. lia.
    + now rewrite Hr.
Qed.

Lemma track_click_rest (link_id : Z) (db : DB) :
  settings (fst (track_click link_id db)) = settings db
  /\ links_seq (fst (track_click link_id db)) = links_seq db.
Proof.
  unfold track_click. destruct (negb (binds link_id)); split; reflexivity.
Qed.

Lemma track_clicks_rest (n : nat) (link_id : Z) (db : DB) :
  settings (track_clicks n link_id db) = settings db
  /\ links_seq (track_clicks n link_id db) = links_seq db.
Proof.
  revert db. induction n as [|n IH]; intros db; [split; reflexivity|].
  cbn [track_clicks]. destruct (IH (fst (track_click link_id db))) as [-> ->].
  apply track_click_rest.
Qed.

(** C9 (as the specification words it) fails: [track_click] on the id 2^63
    answers 500. *)
Lemma track_click_fails_past_the_largest_id :
  id_past_the_largest = 9223372036854775808
  /\ track_click id_past_the_largest db_hidden
     = (db_hidden, Raise internal_server_error)
  /\ status_code internal_server_error = 500.
Proof. repeat split. Qed.

(** C9 (within the integers of SQLite): [track_click] answers "ok" for
    every id that is an integer of SQLite, and 500, changing nothing, for
    every other id.  When no link has the id the store stays as it is;
    otherwise a call adds 1 to the [usage_count] of the links of that id
    and changes no other column, link or setting, and N calls add N. *)
Theorem track_click_counts :
  (forall link_id db,
     binds link_id = true -> snd (track_click link_id db) = Return "ok")
  /\ (forall link_id db,
        link_id < INT64_MIN \/ INT64_MAX < link_id ->
        exists e,
          track_click link_id db = (db, Raise e) /\ status_code e = 500)
  /\ (forall link_id db,
        (~ exists row, In row (links db) /\ Row.id row = link_id) ->
        fst (track_click link_id db) = db)
  /\ (forall link_id db,
        binds link_id = true ->
        clicked_table 1 link_id (links db)
          (links (fst (track_click link_id db)))
        /\ settings (fst (track_click link_id db)) = settings db
        /\ links_seq (fst (track_click link_id db)) = links_seq db)
  /\ (forall n link_id db,
        binds link_id = true ->
        clicked_table (Z.of_nat n) link_id (links db)
          (links (track_clicks n link_id db))
        /\ settings (track_clicks n link_id db) = settings db
        /\ links_seq (track_clicks n link_id db) = links_seq db).
Proof.
  assert (Hn : forall n link_id db,
    binds link_id = true ->
    clicked_table (Z.of_nat n) link_id (links db)
      (links (track_clicks n link_id db))).
  { intros n link_id db Hid. rewrite track_clicks_links by exact Hid.
    apply Forall2_map_self. intros r. unfold has_id.
    destruct (Row.id r =? link_id); [|reflexivity].
    unfold clicked. simpl. tauto. }
  split; [|split; [|split; [|split]]].
  - intros link_id db Hid. now rewrite track_click_eq.
  - intros link_id db Hout. exists internal_server_error.
    split; [|reflexivity].
    apply track_click_unbound. now apply binds_false_iff.
  - intros link_id db Hnone. unfold track_click.
    destruct (negb (binds link_id)); [reflexivity|]. cbn [fst].
    rewrite update_where_id_absent by assumption. apply with_links_same.
  - intros link_id db Hid. split; [|apply track_click_rest].
    apply (Hn 1%nat link_id db Hid).
  - intros n link_id db Hid.
    split; [now apply Hn | apply track_clicks_rest].
Qed.

Lemma track_click_counts_witness :
  (~ exists row, In row (links db_hidden) /\ Row.id row = 99)
  /\ fst (track_click 99 db_hidden) = db_hidden
  /\ binds 2 = true
  /\ snd (track_click 2 db_hidden) = Return "ok"
  /\ clicked_table 3 2 (links db_hidden) (links (track_clicks 3 2 db_hidden))
  /\ INT64_MAX < id_past_the_largest
  /\ exists e,
       track_click id_past_the_largest db_hidden = (db_hidden, Raise e)
       /\ status_code e = 500.
Proof.
  assert (Habsent : ~ exists row, In row (links db_hidden) /\ Row.id row = 99).
  { intros [row [Hin Hid]]. simpl in Hin.
    destruct Hin as [<- | [<- | []]]; discriminate Hid. }
  assert (Hpast : INT64_MAX < id_past_the_largest) by reflexivity.
  split; [exact Habsent|].
  split; [exact (proj1 (proj2 (proj2 track_click_counts)) 99 db_hidden
                   Habsent)|].
  split; [reflexivity|].
  split; [exact (proj1 track_click_counts 2 db_hidden eq_refl)|].
  split; [exact (proj1 (proj2 (proj2 (proj2 (proj2 track_click_counts)))
                          3%nat 2 db_hidden eq_refl))|].
  split; [exact Hpast|].
  exact (proj1 (proj2 track_click_counts) id_past_the_largest db_hidden
           (or_intror Hpast)).
Defined.

(** Three clicks on link 2 of the sample store. *)
Example track_clicks_sample :
  map (fun r => (Row.id r, Row.usage_count r))
    (links (track_clicks 3 2 db_hidden))
  = [(1, 0); (2, 3)].
Proof. reflexivity. Qed.

(** ** Tokens *)

Lemma verify_token_cases `{Env} (utcnow : Z)
    (creds : HTTPAuthorizationCredentials) :
  (verify_token utcnow creds = Return "admin"
   /\ exists claims,
        jws_verify (credentials creds) SECRET_KEY [ALGORITHM] = Some claims
        /\ sub claims = Some "admin")
  \/ (exists e, verify_token utcnow creds = Raise e /\ status_code e = 403).
Proof.
  unfold verify_token, jwt_decode.
  destruct (jws_verify (credentials creds) SECRET_KEY [ALGORITHM])
    as [claims|] eqn:Hv; [|right; eauto].
  assert (Hsub :
    (match sub claims with
     | Some username =>
         if negb (String.eqb username "admin")
         then Raise {| status_code := 403; detail := "Invalid token" |}
         else Return username
     | None => Raise {| status_code := 403; detail := "Invalid token" |}
     end = Return "admin" /\ sub claims = Some "admin")
    \/ (exists e,
          match sub claims with
          | Some username =>
              if negb (String.eqb username "admin")
              then Raise {| status_code := 403; detail := "Invalid token" |}
              else Return username
          | None => Raise {| status_code := 403; detail := "Invalid token" |}
          end = Raise e /\ status_code e = 403)).
  { destruct (sub claims) as [username|]; [|right; eauto].
    destruct (String.eqb username "admin") eqn:E; [|right; simpl; eauto].
    apply String.eqb_eq in E. subst. left. auto. }
  destruct (exp claims) as [e|].
  - destruct (e <? utcnow); [right; eauto|].
    destruct Hsub as [[-> Hs] | Hs]; [left; eauto | right; exact Hs].
  - destruct Hsub as [[-> Hs] | Hs]; [left; eauto | right; exact Hs].
Qed.

(** C10: the token [login] issues at second [issued_at] is signed for the
    admin with the expiry [issued_at + 24 * 3600].  Where the library
    accepts what it has signed, [verify_token] answers "admin" for it at
    every second up to that expiry and raises 403 at every second after
    it.  And [verify_token] raises 403 for every token that does not carry
    the admin's identity: it never answers another name. *)
Theorem issued_token_verifies_until_expiry `{Env} (issued_at : Z) :
  login_token issued_at
  = jws_sign {| sub := Some "admin"; exp := Some (issued_at + 86400) |}
      SECRET_KEY ALGORITHM
  /\ (forall utcnow sch,
        jws_verify (login_token issued_at) SECRET_KEY [ALGORITHM]
        = Some {| sub := Some "admin"; exp := Some (issued_at + 86400) |} ->
        (utcnow <= issued_at + 86400 ->
         verify_token utcnow
           {| scheme := sch; credentials := login_token issued_at |}
         = Return "admin")
        /\ (issued_at + 86400 < utcnow ->
            verify_token utcnow
              {| scheme := sch; credentials := login_token issued_at |}
            = Raise {| status_code := 403;
                       detail := "Invalid or expired token" |}))
  /\ (forall utcnow creds,
        (forall claims,
           jws_verify (credentials creds) SECRET_KEY [ALGORITHM]
           = Some claims ->
           sub claims <> Some "admin") ->
        exists e, verify_token utcnow creds = Raise e /\ status_code e = 403)
  /\ (forall utcnow creds username,
        verify_token utcnow creds = Return username -> username = "admin").
Proof.
  split; [|split; [|split]].
  - reflexivity.
  - intros utcnow sch Hlib. unfold verify_token, jwt_decode.
    cbn [credentials]. rewrite Hlib. cbn [exp sub]. split; intros Ht.
    + apply Z.ltb_ge in Ht. now rewrite Ht.
    + apply Z.ltb_lt in Ht. now rewrite Ht.
  - intros utcnow creds Hother.
    destruct (verify_token_cases utcnow creds)
      as [[_ [claims [Hv Hs]]] | Hrej]; [|exact Hrej].
    exfalso. exact (Hother claims Hv Hs).
  - intros utcnow creds username Hok.
    destruct (verify_token_cases utcnow creds)
      as [[Hadmin _] | [e [Hrej _]]]; congruence.
Qed.

Lemma issued_token_verifies_until_expiry_witness :
  @jws_verify one_token_env (@login_token one_token_env 0)
    (@SECRET_KEY one_token_env) [ALGORITHM]
  = Some {| sub := Some "admin"; exp := Some 86400 |}
  /\ @verify_token one_token_env 86400
       {| scheme := "Bearer"; credentials := @login_token one_token_env 0 |}
     = Return "admin"
  /\ @verify_token one_token_env 86401
       {| scheme := "Bearer"; credentials := @login_token one_token_env 0 |}
     = Raise {| status_code := 403; detail := "Invalid or expired token" |}
  /\ exists e,
       @verify_token one_token_env 0
         {| scheme := "Bearer"; credentials := "forged" |}
       = Raise e /\ status_code e = 403.
Proof.
  pose proof (@issued_token_verifies_until_expiry one_token_env 0)
    as [_ [Hissued [Hother _]]].
  split; [reflexivity|]. split; [|split].
  - apply (proj1 (Hissued 86400 "Bearer" eq_refl)). simpl. lia.
  - apply (proj2 (Hissued 86401 "Bearer" eq_refl)). simpl. lia.
  - apply (Hother 0 {| scheme := "Bearer"; credentials := "forged" |}).
    intros claims Hv. simpl in Hv. discriminate Hv.
Defined.

(** ** Deleting a link *)

Lemma filter_has_id_nil (i : Z) (t : list Row.t) :
  filter (has_id i) t = [] <-> ~ exists row, In row t /\ Row.id row = i.
Proof.
  split.
  - intros Hnil [row [Hin Hid]].
    assert (Hf : In row (filter (has_id i) t)).
    { apply filter_In. split; [assumption|]. now apply Z.eqb_eq. }
    rewrite Hnil in Hf. contradiction.
  - intros Hn. destruct (filter (has_id i) t) as [|row l] eqn:Hf;
      [reflexivity|].
    exfalso. apply Hn. exists row.
    assert (Hrow : In row (filter (has_id i) t)) by (rewrite Hf; now left).
    apply filter_In in Hrow. destruct Hrow as [Hin Hid].
    apply Z.eqb_eq in Hid. auto.
Qed.

Lemma filter_all {A : Type} (f : A -> bool) (l : list A) :
  (forall x, In x l -> f x = true) -> filter f l = l.
Proof.
  induction l as [|x l IH]; intros Hl; simpl; [reflexivity|].
  rewrite (Hl x) by now left. f_equal. apply IH. intros y Hy. apply Hl.
  now right.
Qed.

Lemma delete_link_unbound (link_id : Z) (username : string) (db : DB) :
  binds link_id = false ->
  delete_link link_id username db = (db, Raise internal_server_error).
Proof. intros Hid. unfold delete_link. now rewrite Hid. Qed.

Lemma delete_link_links (link_id : Z) (username : string) (db : DB) :
  binds link_id = true ->
  fst (delete_link link_id username db)
  = with_links db (filter (fun r => negb (has_id link_id r)) (links db)).
Proof.
  intros Hid. unfold delete_link. rewrite Hid. cbn [negb].
  now destruct (Nat.eqb _ 0).
Qed.

(** X1: for an id that is an integer of SQLite, [delete_link] on an id no
    link has raises 404 and leaves the store as it is; on an id some link
    has it answers "deleted", and the links of the store are then those of
    another id, each as it was and in the order they were in; the settings
    and the id counter stay.  For any other id it raises 500 and leaves the
    store as it is. *)
Theorem delete_link_removes :
  (forall link_id username db,
     binds link_id = true ->
     (~ exists row, In row (links db) /\ Row.id row = link_id) ->
     delete_link link_id username db
     = (db, Raise {| status_code := 404; detail := "Link not found" |}))
  /\ (forall link_id username db,
        binds link_id = true ->
        (exists row, In row (links db) /\ Row.id row = link_id) ->
        exists db',
          delete_link link_id username db = (db', Return "deleted")
          /\ links db'
             = filter (fun r => negb (Row.id r =? link_id)) (links db)
          /\ (forall row,
                In row (links db')
                <-> In row (links db) /\ Row.id row <> link_id)
          /\ (exists removed,
                Permutation (links db) (removed ++ links db')
                /\ Forall (fun r => Row.id r = link_id) removed)
          /\ settings db' = settings db
          /\ links_seq db' = links_seq db)
  /\ (forall link_id username db,
        link_id < INT64_MIN \/ INT64_MAX < link_id ->
        exists e,
          delete_link link_id username db = (db, Raise e)
          /\ status_code e = 500).
Proof.
  split; [|split].
  - intros link_id username db Hid Hn. unfold delete_link.
    rewrite Hid. cbn [negb].
    rewrite (proj2 (filter_has_id_nil link_id (links db)) Hn). simpl.
    rewrite filter_all; [now rewrite with_links_same|].
    intros r Hr. apply negb_true_iff, Z.eqb_neq. intros Hid'.
    apply Hn. eauto.
  - intros link_id username db Hid Hex. unfold delete_link.
    rewrite Hid. cbn [negb].
    destruct (filter (has_id link_id) (links db)) as [|r l] eqn:Hf.
    + apply filter_has_id_nil in Hf. contradiction.
    + simpl. eexists. split; [reflexivity|]. cbn [with_links links settings
        links_seq]. split; [reflexivity|].
      split; [|split; [|split; reflexivity]].
      * intros row. rewrite filter_In. unfold has_id.
        rewrite negb_true_iff, Z.eqb_neq. tauto.
      * exists (filter (has_id link_id) (links db)). split.
        -- clear. induction (links db) as [|x t IH]; simpl; [constructor|].
           destruct (has_id link_id x); simpl.
           ++ now constructor.
           ++ rewrite IH at 1. apply Permutation_middle.
        -- rewrite Forall_forall. intros x Hx. apply filter_In in Hx.
           destruct Hx as [_ Hx]. now apply Z.eqb_eq in Hx.
  - intros link_id username db Hout. exists internal_server_error.
    split; [|reflexivity].
    apply delete_link_unbound. now apply binds_false_iff.
Qed.

Lemma delete_link_removes_witness :
  binds 1 = true
  /\ binds 99 = true
  /\ (exists row, In row (links db_hidden) /\ Row.id row = 1)
  /\ (~ exists row, In row (links db_hidden) /\ Row.id row = 99)
  /\ (exists db',
        delete_link 1 "admin" db_hidden = (db', Return "deleted")
        /\ map Row.id (links db') = [2])
  /\ delete_link 99 "admin" db_hidden
     = (db_hidden, Raise {| status_code := 404; detail := "Link not found" |})
  /\ INT64_MAX < id_past_the_largest
  /\ exists e,
       delete_link id_past_the_largest "admin" db_hidden
       = (db_hidden, Raise e)
       /\ status_code e = 500.
Proof.
  assert (Hpresent : exists row, In row (links db_hidden) /\ Row.id row = 1).
  { exists (sample_row 1 "Private" 1 "2024-01-01 00:00:00"). simpl. auto. }
  assert (Habsent : ~ exists row, In row (links db_hidden) /\ Row.id row = 99).
  { intros [row [Hin Hid]]. simpl in Hin.
    destruct Hin as [<- | [<- | []]]; discriminate Hid. }
  assert (Hpast : INT64_MAX < id_past_the_largest) by reflexivity.
  split; [reflexivity|]. split; [reflexivity|].
  split; [exact Hpresent|]. split; [exact Habsent|]. split; [|split].
  - destruct (proj1 (proj2 delete_link_removes) 1 "admin" db_hidden eq_refl
                Hpresent)
      as [db' [Hdel [Hlinks _]]].
    exists db'. split; [exact Hdel|]. rewrite Hlinks. reflexivity.
  - exact (proj1 delete_link_removes 99 "admin" db_hidden eq_refl Habsent).
  - split; [exact Hpast|].
    exact (proj2 (proj2 delete_link_removes) id_past_the_largest "admin"
             db_hidden (or_intror Hpast)).
Defined.

(** ** What every sequence of writes keeps *)

Lemma NoDup_map_filter {A B : Type} (p : A -> B) (f : A -> bool)
    (l : list A) :
  NoDup (map p l) -> NoDup (map p (filter f l)).
Proof.
  induction l as [|x l IH]; simpl; intros Hnd; [constructor|].
  inversion Hnd as [|? ? Hx Hnd']; subst.
  destruct (f x); simpl; [|auto].
  constructor; [|auto].
  intros Hin. apply Hx. apply in_map_iff in Hin.
  destruct Hin as [y [Hy Hin]]. apply filter_In in Hin.
  apply in_map_iff. exists y. tauto.
Qed.

Lemma update_where_id_map_ids (i : Z) (f : Row.t -> Row.t) (t : list Row.t) :
  (forall r, Row.id (f r) = Row.id r) ->
  map Row.id (update_where_id i f t) = map Row.id t.
Proof.
  intros Hf. unfold update_where_id. rewrite map_map. apply map_ext.
  intros r. destruct (has_id i r); auto.
Qed.

Lemma update_link_store (link_id : Z) (link : LinkUpdate.t)
    (username : string) (db : DB) :
  fst (update_link link_id link username db) = db
  \/ exists existing,
       fetch_by_id link_id (links db) = Some existing
       /\ link <> empty_update
       /\ fst (update_link link_id link username db)
          = with_links db
              (update_where_id link_id
                 (fun r =>
                    fold_left assign
                      (build_updates link (Row.category existing) (links db))
                      r)
                 (links db)).
Proof.
  destruct (update_link_cases link_id link username db)
    as [[_ ->] | [[_ [_ ->]] | [existing [_ [Hex Hcases]]]]];
    [now left | now left |].
  destruct Hcases as [[_ ->] | [[_ [_ ->]] | [Hne [_ ->]]]];
    [now left | now left |].
  right. exists existing. split; [exact Hex|]. split; [exact Hne|].
  reflexivity.
Qed.

Lemma reorder_links_store (payload : LinkReorderRequest.t)
    (username : string) (db : DB) :
  fst (reorder_links payload username db) = db
  \/ fst (reorder_links payload username db)
     = with_links db
         (map (reordered (LinkReorderRequest.items payload)) (links db)).
Proof.
  destruct (LinkReorderRequest.items payload) as [|item items] eqn:Hitems.
  - left. unfold reorder_links. now rewrite Hitems.
  - assert (Hne : LinkReorderRequest.items payload <> [])
      by (rewrite Hitems; discriminate).
    destruct (reorder_loop_spec (LinkReorderRequest.items payload) (links db))
      as [[Hrange _] | [Hnot _]].
    + right. rewrite reorder_links_eq by assumption. now rewrite Hitems.
    + left. now rewrite reorder_links_overflows.
Qed.

Lemma track_click_store (link_id : Z) (db : DB) :
  fst (track_click link_id db) = db
  \/ fst (track_click link_id db)
     = with_links db
         (update_where_id link_id
            (fun r => set_usage_count (Row.usage_count r + 1) r)
            (links db)).
Proof.
  unfold track_click. destruct (negb (binds link_id)); [now left | now right].
Qed.

Lemma delete_link_store (link_id : Z) (username : string) (db : DB) :
  fst (delete_link link_id username db) = db
  \/ fst (delete_link link_id username db)
     = with_links db (filter (fun r => negb (has_id link_id r)) (links db)).
Proof.
  destruct (binds link_id) eqn:Hid.
  - right. now apply delete_link_links.
  - left. now rewrite delete_link_unbound.
Qed.

Lemma ids_ok_same_ids (db : DB) (t : list Row.t) :
  map Row.id t = map Row.id (links db) -> ids_ok db ->
  ids_ok (with_links db t).
Proof.
  intros Hids [Hnd Hle]. unfold ids_ok. cbn [with_links links links_seq].
  rewrite Hids. split; [assumption|].
  rewrite Forall_forall in *. intros r Hr.
  assert (Hin : In (Row.id r) (map Row.id (links db)))
    by (rewrite <- Hids; now apply in_map).
  apply in_map_iff in Hin. destruct Hin as [r' [<- Hr']]. auto.
Qed.

Lemma next_rowid_above (db : DB) :
  ids_ok db ->
  links_seq db < next_rowid db
  /\ Forall (fun r => Row.id r < next_rowid db) (links db).
Proof.
  intros [_ Hle]. unfold next_rowid. split; [lia|].
  eapply Forall_impl; [|exact Hle]. simpl. intros r Hr. lia.
Qed.

Lemma handle_ids_ok (username : string) (db : DB) (req : request) :
  ids_ok db ->
  ids_ok (handle username db req)
  /\ links_seq db <= links_seq (handle username db req).
Proof.
  intros Hok. destruct req as [ts link | payload | link_id link | link_id
                              | link_id | payload]; cbn [handle].
  - destruct (create_link_cases ts link username db)
      as [-> | [Hsort Hnext]]; [split; [assumption | cbn; lia]|].
    pose proof (create_link_runs ts link username db Hsort Hnext) as Heq.
    cbv zeta in Heq. rewrite Heq. cbn [fst].
    destruct (next_rowid_above db Hok) as [Hseq Hall].
    destruct Hok as [Hnd Hle].
    unfold ids_ok. cbn [links links_seq]. split; [split|lia].
    + rewrite map_app. apply NoDup_app; [assumption | |].
      * simpl. constructor; [tauto | constructor].
      * intros i Hi [<- | []]. apply in_map_iff in Hi.
        destruct Hi as [r [Hid Hr]]. rewrite Forall_forall in Hall.
        specialize (Hall r Hr). simpl in Hid. lia.
    + apply Forall_app. split.
      * eapply Forall_impl; [|exact Hall]. simpl. intros; lia.
      * constructor; [simpl; lia | constructor].
  - destruct (reorder_links_store payload username db) as [-> | ->].
    + split; [assumption | lia].
    + split; [|cbn; lia]. apply ids_ok_same_ids; [|assumption].
      rewrite map_map. apply map_ext. intros r. apply reordered_id.
  - destruct (update_link_store link_id link username db)
      as [-> | [existing [_ [_ ->]]]].
    + split; [assumption | lia].
    + split; [|cbn; lia]. apply ids_ok_same_ids; [|assumption].
      apply update_where_id_map_ids. intros r. apply fold_assign_id.
  - destruct (track_click_store link_id db) as [-> | ->];
      [split; [assumption | lia]|].
    split; [|cbn; lia].
    apply ids_ok_same_ids; [|assumption].
    now apply update_where_id_map_ids.
  - destruct (delete_link_store link_id username db) as [-> | ->];
      [split; [assumption | lia]|].
    split; [|cbn; lia].
    destruct Hok as [Hnd Hle]. unfold ids_ok. cbn [with_links links links_seq].
    split; [now apply NoDup_map_filter|].
    rewrite Forall_forall in *. intros r Hr. apply filter_In in Hr.
    apply Hle. tauto.
  - cbn [update_category_order fst]. split; [exact Hok | cbn; lia].
Qed.




Lemma update_where_id_split (i : Z) (f : Row.t -> Row.t) (t : list Row.t)
    (r : Row.t) :
  NoDup (map Row.id t) -> In r t -> Row.id r = i ->
  exists l1 l2, t = l1 ++ r :: l2 /\ update_where_id i f t = l1 ++ f r :: l2.
Proof.
  intros Hnd Hin Hid.
  destruct (in_split _ _ Hin) as [l1 [l2 ->]].
  exists l1, l2. split; [reflexivity|].
  rewrite map_app in Hnd. simpl in Hnd.
  pose proof (NoDup_remove_2 _ _ _ Hnd) as Hfresh.
  assert (Hother : forall l,
    (forall x, In x l -> In (Row.id x) (map Row.id l1 ++ map Row.id l2)) ->
    update_where_id i f l = l).
  { intros l Hl. unfold update_where_id.
    rewrite <- (map_id l) at 2. apply map_ext_in. intros x Hx.
    destruct (has_id i x) eqn:Hx'; [|reflexivity].
    apply Z.eqb_eq in Hx'. exfalso. apply Hfresh.
    rewrite Hid, <- Hx'. now apply Hl. }
  unfold update_where_id in *. rewrite map_app. simpl.
  rewrite (Hother l1), (Hother l2).
  - unfold has_id. now rewrite Hid, Z.eqb_refl.
  - intros x Hx. apply in_or_app. right. now apply in_map.
  - intros x Hx. apply in_or_app. left. now apply in_map.
Qed.

Lemma NoDup_map_replace {A B : Type} (p : A -> B) (l1 l2 : list A)
    (x x' : A) :
  NoDup (map p (l1 ++ x :: l2)) ->
  p x' = p x \/ ~ In (p x') (map p (l1 ++ l2)) ->
  NoDup (map p (l1 ++ x' :: l2)).
Proof.
  rewrite !map_app. simpl. intros Hnd Hx'.
  pose proof (NoDup_remove_1 _ _ _ Hnd) as Hrest.
  pose proof (NoDup_remove_2 _ _ _ Hnd) as Hfresh.
  eapply Permutation_NoDup; [apply Permutation_middle|].
  constructor; [|assumption].
  destruct Hx' as [-> | Hx']; assumption.
Qed.

Lemma max_sort_index_bound (db : DB) (r : Row.t) :
  In r (links db) ->
  Row.sort_index r <= max_sort_index (Row.category r) (links db).
Proof.
  intros Hin.
  destruct (max_sort_index_spec db (Row.category r)) as [[Hnone _] | [_ Hle]].
  - exfalso. apply Hnone. exists r. auto.
  - now apply Hle.
Qed.

Lemma handle_sort_index_unique (username : string) (db : DB) (req : request) :
  ids_ok db -> is_reorder req = false ->
  sort_index_unique (links db) ->
  sort_index_unique (links (handle username db req)).
Proof.
  intros [Hnd _] Hreq Huniq.
  destruct req as [ts link | payload | link_id link | link_id
                  | link_id | payload]; cbn [handle]; try discriminate Hreq.
  - destruct (create_link_cases ts link username db)
      as [-> | [Hsort Hnext]]; [assumption|].
    pose proof (create_link_runs ts link username db Hsort Hnext) as Heq.
    cbv zeta in Heq. rewrite Heq. cbn [fst links].
    unfold sort_index_unique in *. rewrite map_app.
    apply NoDup_app; [assumption | |].
    + simpl. constructor; [tauto | constructor].
    + intros pr Hpr [<- | []]. apply in_map_iff in Hpr.
      destruct Hpr as [r [Hpair Hr]]. simpl in Hpair.
      injection Hpair as Hc Hs.
      pose proof (max_sort_index_bound db r Hr) as Hb.
      rewrite Hc in Hb. lia.
  - destruct (update_link_store link_id link username db)
      as [-> | [existing [Hf [_ ->]]]]; [assumption|].
    cbn [with_links links].
    apply find_some in Hf. destruct Hf as [Hin Hid]. apply Z.eqb_eq in Hid.
    destruct (update_where_id_split link_id
                (fun r =>
                   fold_left assign
                     (build_updates link (Row.category existing) (links db))
                     r)
                (links db) existing Hnd Hin Hid)
      as [l1 [l2 [Ht ->]]].
    unfold sort_index_unique in *. rewrite Ht in Huniq.
    eapply NoDup_map_replace; [exact Huniq|].
    pose proof (build_updates_effect link (Row.category existing) (links db)
                  existing) as Heff.
    cbv zeta in Heff. destruct Heff as [Hcat [Hsort _]].
    rewrite Hcat, Hsort.
    destruct (LinkUpdate.category link) as [c|]; [|now left].
    destruct (String.eqb c (Row.category existing)) eqn:Hc.
    + apply String.eqb_eq in Hc. rewrite Hc. now left.
    + right. intros Hpr. apply in_map_iff in Hpr.
      destruct Hpr as [r [Hpair Hr]]. injection Hpair as Hrc Hrs.
      assert (Hr' : In r (links db)).
      { rewrite Ht. apply in_app_or in Hr. apply in_or_app.
        destruct Hr; [now left | right; now right]. }
      pose proof (max_sort_index_bound db r Hr') as Hb.
      rewrite Hrc in Hb. lia.
  - destruct (track_click_store link_id db) as [-> | ->]; [assumption|].
    cbn [with_links links].
    unfold sort_index_unique, update_where_id in *. rewrite map_map.
    erewrite map_ext; [exact Huniq|].
    intros r. now destruct (has_id link_id r).
  - destruct (delete_link_store link_id username db) as [-> | ->];
      [assumption|].
    cbn [with_links links]. now apply NoDup_map_filter.
  - exact Huniq.
Qed.

(** X3: On a store whose ids differ and where no two links of a category share
    a [sort_index], every sequence of writes without a batch reorder leaves
    a store where no two links of a category share a [sort_index]. *)
Theorem sort_index_stays_unique (username : string) (reqs : list request)
    (db : DB) (Hok : ids_ok db)
    (Huniq : sort_index_unique (links db))
    (Hreqs : forallb (fun req => negb (is_reorder req)) reqs = true) :
  sort_index_unique (links (handle_all username reqs db)).
Proof.
  revert db Hok Huniq.
  induction reqs as [|req reqs IH]; intros db Hok Huniq; [exact Huniq|].
  simpl in Hreqs. apply andb_prop in Hreqs. destruct Hreqs as [Hreq Hreqs].
  apply negb_true_iff in Hreq.
  cbn [handle_all fold_left]. apply (IH Hreqs).
  - now apply handle_ids_ok.
  - now apply handle_sort_index_unique.
Qed.

Lemma sort_index_stays_unique_witness :
  ids_ok db_hidden
  /\ sort_index_unique (links db_hidden)
  /\ sort_index_unique
       (links
          (handle_all "admin"
             [Update 1 (move_to "Public"); Click 2; Delete 2;
              Create "2024-03-01 00:00:00"
                (LinkCreate.mk "t" "u" None None None "Public" false)]
             db_hidden)).
Proof.
  assert (Hok : ids_ok db_hidden).
  { split; simpl.
    - constructor; [simpl; intuition lia|].
      constructor; [simpl; tauto | constructor].
    - repeat constructor; simpl; lia. }
  assert (Huniq : sort_index_unique (links db_hidden)).
  { unfold sort_index_unique. simpl.
    constructor; [simpl; intros [H | []]; discriminate H|].
    constructor; [simpl; tauto | constructor]. }
  split; [exact Hok|]. split; [exact Huniq|].
  apply (sort_index_stays_unique "admin" _ db_hidden Hok Huniq).
  reflexivity.
Defined.

(** A batch reorder is not held to this: it may give two links of a
    category one [sort_index]. *)
Example reorder_may_share_sort_index :
  sort_index_unique (links db_5_and_7)
  /\ ~ sort_index_unique
         (links
            (handle "admin" db_5_and_7
               (Reorder
                  (LinkReorderRequest.mk
                     [LinkReorderItem.mk 5 "B" 1])))).
Proof.
  split.
  - unfold sort_index_unique. simpl.
    constructor; [simpl; intros [H | []]; discriminate H|].
    constructor; [simpl; tauto | constructor].
  - unfold sort_index_unique. simpl. intros Hnd.
    inversion Hnd as [|? ? Hx _]; subst. apply Hx. now left.
Qed.

(** ** Where a new or a moved link is listed *)

Lemma get_links_rows_In (db : DB) (category : option string)
    (favorite : option bool) (current_user : option string) (r : Row.t) :
  In r (get_links_rows db category favorite current_user)
  <-> In r (links db)
      /\ get_links_where (hidden_categories_of db) category favorite
           current_user r = true.
Proof.
  rewrite <- filter_In. split; intros Hr.
  - eapply Permutation_in; [symmetry; apply get_links_rows_perm | exact Hr].
  - eapply Permutation_in; [apply get_links_rows_perm | exact Hr].
Qed.







(** ** What an update writes *)




(** ** What a list holds *)

(** X7: Every link [get_links] returns is a stored link; it is of the category
    asked for, when one is asked for by a name that is not empty; it has the
    [favorite] flag asked for, when one is asked for; and the admin is
    returned it too.  Asking for the category of the empty name is asking
    for no category. *)
Theorem get_links_respects_filters `{Sqlite} :
  (forall db category favorite current_user listed l,
     get_links db category favorite current_user = Return listed ->
     In l listed ->
     (exists r, In r (links db) /\ l = LinkResponse_of_row r)
     /\ (forall c, category = Some c -> c <> "" ->
                   LinkResponse.category l = c)
     /\ (forall b, favorite = Some b -> LinkResponse.is_favorite l = b)
     /\ exists listed',
          get_links db category favorite (Some "admin") = Return listed'
          /\ In l listed')
  /\ (forall db favorite current_user,
        get_links db (Some "") favorite current_user
        = get_links db None favorite current_user).
Proof.
  split; [|reflexivity].
  intros db category favorite current_user listed l Hlisted Hl.
  apply get_links_Return in Hlisted. subst listed.
  apply in_map_iff in Hl.
  destruct Hl as [r [<- Hr]]. apply get_links_rows_In in Hr.
  destruct Hr as [Hin Hwhere].
  unfold get_links_where in Hwhere.
  apply andb_prop in Hwhere. destruct Hwhere as [Hwhere Hfav].
  apply andb_prop in Hwhere. destruct Hwhere as [_ Hcat].
  split; [eauto|]. split; [|split].
  - intros c -> Hc. cbn [truthy_opt_str] in Hcat. unfold truthy_str in Hcat.
    apply String.eqb_neq in Hc. rewrite Hc in Hcat. simpl in Hcat.
    now apply String.eqb_eq in Hcat.
  - intros b ->. apply Z.eqb_eq in Hfav. simpl. rewrite Hfav.
    now destruct b.
  - eexists. split; [apply get_links_returns; now left|].
    apply in_map. apply get_links_rows_In.
    split; [assumption|]. unfold get_links_where. simpl.
    now rewrite Hcat, Hfav.
Qed.

Lemma get_links_respects_filters_witness :
  @get_links sqlite_999 db_hidden (Some "Public") (Some false) None
  = Return [LinkResponse_of_row
              (sample_row 2 "Public" 1 "2024-01-01 00:00:01")]
  /\ exists listed',
       @get_links sqlite_999 db_hidden (Some "Public") (Some false)
         (Some "admin")
       = Return listed'
       /\ In (LinkResponse_of_row
                (sample_row 2 "Public" 1 "2024-01-01 00:00:01"))
            listed'.
Proof.
  split; [reflexivity|].
  exact (proj2 (proj2 (proj2
           (proj1 (@get_links_respects_filters sqlite_999) db_hidden
              (Some "Public") (Some false) None _ _ eq_refl
              (or_introl eq_refl))))).
Defined.

(** ** Batches and clicks against the list *)

Lemma reordered_twice (items : list LinkReorderItem.t) (r : Row.t) :
  reordered items (reordered items r) = reordered items r.
Proof.
  unfold reordered at 1. rewrite reordered_id. unfold reordered.
  destruct (last_item_for (Row.id r) items); reflexivity.
Qed.

(** X8: Sending a batch a second time changes nothing: the store after the
    second [reorder_links] is the store after the first, and the answer is
    the same. *)
Theorem reorder_links_twice (payload : LinkReorderRequest.t)
    (username : string) (db : DB) :
  reorder_links payload username (fst (reorder_links payload username db))
  = reorder_links payload username db.
Proof.
  destruct (LinkReorderRequest.items payload) as [|item items] eqn:Hitems.
  - unfold reorder_links. rewrite Hitems. reflexivity.
  - assert (Hne : LinkReorderRequest.items payload <> [])
      by (rewrite Hitems; discriminate).
    destruct (reorder_loop_spec (LinkReorderRequest.items payload) (links db))
      as [[Hrange _] | [Hnot _]].
    + rewrite (reorder_links_eq payload username db Hne Hrange). cbn [fst].
      rewrite (reorder_links_eq payload username _ Hne Hrange).
      unfold with_links. cbn [links links_seq settings].
      rewrite map_map. f_equal. f_equal. apply map_ext.
      intros r. apply reordered_twice.
    + rewrite (reorder_links_overflows payload username db Hne Hnot).
      cbn [fst]. now apply reorder_links_overflows.
Qed.

Lemma insert_sorted_map {A : Type} (leb : A -> A -> bool) (g : A -> A)
    (x : A) (l : list A) :
  (forall a b, leb (g a) (g b) = leb a b) ->
  insert_sorted leb (g x) (map g l) = map g (insert_sorted leb x l).
Proof.
  intros Hg. induction l as [|y l IH]; simpl; [reflexivity|].
  rewrite Hg. destruct (leb x y); simpl; [reflexivity|]. now rewrite IH.
Qed.

Lemma sort_by_map {A : Type} (leb : A -> A -> bool) (g : A -> A)
    (l : list A) :
  (forall a b, leb (g a) (g b) = leb a b) ->
  sort_by leb (map g l) = map g (sort_by leb l).
Proof.
  intros Hg. induction l as [|x l IH]; simpl; [reflexivity|].
  rewrite IH. now apply insert_sorted_map.
Qed.

Lemma filter_map_same {A : Type} (p : A -> bool) (g : A -> A) (l : list A) :
  (forall a, p (g a) = p a) -> filter p (map g l) = map g (filter p l).
Proof.
  intros Hg. induction l as [|x l IH]; simpl; [reflexivity|].
  rewrite Hg, IH. now destruct (p x).
Qed.

(** X9: A click changes no list but in the count it adds: for every filter and
    caller, [get_links] after [track_click] answers as it answered before,
    and the links it returns are those it returned before, in the order it
    returned them, the clicked one with one click more (on an id that is no
    integer of SQLite no click is counted). *)
Theorem track_click_keeps_the_list `{Sqlite} (link_id : Z) (db : DB)
    (category : option string) (favorite : option bool)
    (current_user : option string) :
  get_links (fst (track_click link_id db)) category favorite current_user
  = response_map
      (map (if binds link_id then with_click link_id else fun l => l))
      (get_links db category favorite current_user).
Proof.
  destruct (binds link_id) eqn:Hid.
  - rewrite track_click_eq by exact Hid. cbn [fst].
    unfold get_links, get_links_rows.
    change (hidden_categories_of
              (with_links db
                 (update_where_id link_id
                    (fun r => set_usage_count (Row.usage_count r + 1) r)
                    (links db))))
      with (hidden_categories_of db).
    destruct (SQLITE_MAX_VARIABLE_NUMBER <? _); [reflexivity|].
    cbn [response_map with_links links]. f_equal.
    unfold update_where_id.
    rewrite filter_map_same, sort_by_map, !map_map.
    + apply map_ext. intros r. unfold with_click, has_id. simpl.
      now destruct (Row.id r =? link_id).
    + intros a b. unfold order_by_links_leb, order_by_links.
      destruct (has_id link_id a), (has_id link_id b); reflexivity.
    + intros a. unfold get_links_where.
      destruct (has_id link_id a); reflexivity.
  - rewrite track_click_unbound by exact Hid. cbn [fst].
    destruct (get_links db category favorite current_user) as [listed|e];
      cbn [response_map]; [|reflexivity].
    now rewrite map_id.
Qed.

(** ** The categories and their stored order *)

Lemma str_in_distinct (c : string) (l : list string) :
  str_in c (distinct l) = str_in c l.
Proof.
  destruct (str_in c l) eqn:E.
  - apply str_in_In. apply distinct_In. now apply str_in_In.
  - apply str_in_not_In. rewrite distinct_In. now apply str_in_not_In.
Qed.

(** X10: When the stored order names no category twice, [get_categories] names
    each category that some link has exactly once: first the names of the
    stored order, as the order has them and without those no link has, then
    the other categories from the smallest name to the largest. *)
Theorem get_categories_names_each_category_once (db : DB)
    (Horder : NoDup (category_order_of db)) :
  NoDup (get_categories db)
  /\ (forall c, In c (get_categories db) <-> present db c)
  /\ exists remaining,
       get_categories db
       = filter (fun c => str_in c (map Row.category (links db)))
           (category_order_of db)
         ++ remaining
       /\ StronglySorted str_le remaining
       /\ (forall c, In c remaining
                     <-> present db c /\ ~ In c (category_order_of db)).
Proof.
  split; [now apply get_categories_NoDup|].
  split; [apply get_categories_In|].
  destruct (get_categories_shape db) as [remaining [Heq [Hsorted [_ Hrem]]]].
  exists remaining. split; [|split; assumption].
  rewrite Heq. f_equal. apply filter_ext. intros c. apply str_in_distinct.
Qed.

Lemma get_categories_names_each_category_once_witness :
  NoDup (category_order_of db_A_B_C)
  /\ NoDup (get_categories db_A_B_C)
  /\ get_categories db_A_B_C = ["B"; "A"; "C"].
Proof.
  assert (Horder : NoDup (category_order_of db_A_B_C)).
  { simpl. constructor; [simpl; intros [H | []]; discriminate H|].
    constructor; [simpl; tauto | constructor]. }
  split; [exact Horder|].
  split; [|reflexivity].
  exact (proj1 (get_categories_names_each_category_once db_A_B_C Horder)).
Defined.

(** X11: Storing, with [update_category_order], an order that names the
    categories the links have and no other, is answered with that order and
    makes [get_categories] return it as it is; the links, the id counter and
    the hidden categories stay. *)
Theorem category_order_round_trip (payload : CategoryOrderUpdate.t)
    (username : string) (db : DB)
    (Hcovers : forall c, In c (CategoryOrderUpdate.order payload)
                         <-> present db c) :
  exists db',
    update_category_order payload username db
    = (db', Return (CategoryOrderUpdate.order payload))
    /\ get_categories db' = CategoryOrderUpdate.order payload
    /\ links db' = links db
    /\ links_seq db' = links_seq db
    /\ hidden_categories_of db' = hidden_categories_of db.
Proof.
  eexists. split; [reflexivity|].
  split; [|repeat split].
  unfold get_categories, category_order_of. cbn [links settings
    category_order_row].
  set (order := CategoryOrderUpdate.order payload) in *.
  set (categories := distinct (map Row.category (links db))).
  assert (Hall : filter (fun cat => str_in cat categories) order = order).
  { apply filter_all. intros c Hc. apply str_in_In.
    unfold categories. apply present_distinct. now apply Hcovers. }
  rewrite Hall.
  assert (Hnone : filter (fun cat => negb (str_in cat order)) categories = []).
  { destruct (filter _ categories) as [|c l] eqn:Hf; [reflexivity|].
    assert (Hc : In c (filter (fun cat => negb (str_in cat order)) categories))
      by (rewrite Hf; now left).
    apply filter_In in Hc. destruct Hc as [Hc Hn].
    apply negb_true_iff, str_in_not_In in Hn. exfalso. apply Hn.
    apply Hcovers. now apply present_distinct. }
  rewrite Hnone. simpl. apply app_nil_r.
Qed.

Lemma category_order_round_trip_witness :
  (forall c, In c ["C"; "A"; "B"] <-> present db_A_B_C c)
  /\ exists db',
       update_category_order (CategoryOrderUpdate.mk ["C"; "A"; "B"]) "admin"
         db_A_B_C
       = (db', Return ["C"; "A"; "B"])
       /\ get_categories db' = ["C"; "A"; "B"].
Proof.
  assert (Hcovers : forall c, In c ["C"; "A"; "B"] <-> present db_A_B_C c).
  { intros c. unfold present. simpl. split.
    - intros [<- | [<- | [<- | []]]].
      + exists (sample_row 3 "C" 1 "2024-01-01 00:00:02"). auto 6.
      + exists (sample_row 1 "A" 1 "2024-01-01 00:00:00"). auto 6.
      + exists (sample_row 2 "B" 1 "2024-01-01 00:00:01"). auto 6.
    - intros [row [[<- | [<- | [<- | [<- | []]]]] <-]]; simpl; auto. }
  split; [exact Hcovers|].
  destruct (category_order_round_trip (CategoryOrderUpdate.mk ["C"; "A"; "B"])
              "admin" db_A_B_C Hcovers)
    as [db' [Hupd [Hget _]]].
  exists db'. split; [exact Hupd | exact Hget].
Defined.

(** ** The optional identity *)

(** X12: [get_current_user_optional] gives no identity to a request without an
    [Authorization] header, with an empty one, or with one whose first word
    is not "bearer" in some letter case; to a header made of such a word, a
    space and a token it gives what [verify_token] answers for that token,
    and no identity where [verify_token] raises. *)
Theorem get_current_user_optional_agrees_with_verify_token `{Env}
    (utcnow : Z) :
  get_current_user_optional utcnow None = None
  /\ get_current_user_optional utcnow (Some "") = None
  /\ (forall header,
        lower (fst (partition_space header)) <> "bearer" ->
        get_current_user_optional utcnow (Some header) = None)
  /\ (forall sch token,
        lower sch = "bearer" ->
        get_current_user_optional utcnow
          (Some (String.append sch (String " " token)))
        = match verify_token utcnow
                  {| scheme := sch; credentials := token |} with
          | Return username => Some username
          | Raise _ => None
          end).
Proof.
  split; [reflexivity|]. split; [reflexivity|]. split.
  - intros header Hsch. unfold get_current_user_optional.
    destruct (negb (truthy_opt_str (Some header))); [reflexivity|].
    destruct (partition_space header) as [sch token]. simpl in Hsch.
    apply String.eqb_neq in Hsch. now rewrite Hsch.
  - intros sch token Hsch. now apply get_current_user_optional_bearer.
Qed.

Lemma get_current_user_optional_agrees_with_verify_token_witness :
  lower "BeArEr" = "bearer"
  /\ lower (fst (partition_space "Basic signed")) <> "bearer"
  /\ @get_current_user_optional one_token_env 0 (Some "Basic signed") = None
  /\ @get_current_user_optional one_token_env 0 (Some "BeArEr signed")
     = Some "admin".
Proof.
  split; [reflexivity|].
  assert (Hbasic : lower (fst (partition_space "Basic signed")) <> "bearer")
    by discriminate.
  split; [exact Hbasic|]. split.
  - exact (proj1 (proj2 (proj2
             (@get_current_user_optional_agrees_with_verify_token
                one_token_env 0)))
             "Basic signed" Hbasic).
  - exact (proj2 (proj2 (proj2
             (@get_current_user_optional_agrees_with_verify_token
                one_token_env 0)))
             "BeArEr" "signed" eq_refl).
Defined.

(** ** Logging in *)






Lemma admin_sees_all `{Sqlite} (db : DB) (category : option string)
    (favorite : option bool) :
  exists listed,
    get_links db category favorite (Some "admin") = Return listed
    /\ Permutation listed
         (map LinkResponse_of_row
            (filter (matches_filters category favorite) (links db))).
Proof.
  eexists. split; [apply get_links_returns; now left|].
  apply Permutation_map, admin_rows.
Qed.

(** X14: The token of a [login] at second [issued_at], sent as "Bearer <token>"
    to [GET /api/links], gets every link that matches the filters, hidden
    categories included, up to second [issued_at + 86400]; after that second
    it gets what a request without a header gets.  (Where the library
    accepts the token it has signed.) *)
Theorem login_token_lists_hidden_categories `{Env} `{Hashlib} `{Sqlite}
    (issued_at : Z) (request : LoginRequest.t) (s : Database)
    (body : TokenResponse.t)
    (Hlogin : login issued_at request s = Return body)
    (Hlib : jws_verify (TokenResponse.access_token body) SECRET_KEY
              [ALGORITHM]
            = Some {| sub := Some "admin"; exp := Some (issued_at + 86400) |}) :
  TokenResponse.token_type body = "bearer"
  /\ (forall utcnow category favorite,
        utcnow <= issued_at + 86400 ->
        exists listed,
          GET_api_links utcnow
            (Some (String.append "Bearer"
                     (String " " (TokenResponse.access_token body))))
            category favorite (catalogue s)
          = Return listed
          /\ Permutation listed
               (map LinkResponse_of_row
                  (filter (matches_filters category favorite)
                     (links (catalogue s)))))
  /\ (forall utcnow category favorite,
        issued_at + 86400 < utcnow ->
        GET_api_links utcnow
          (Some (String.append "Bearer"
                   (String " " (TokenResponse.access_token body))))
          category favorite (catalogue s)
        = GET_api_links utcnow None category favorite (catalogue s)).
Proof.
  assert (Htype : TokenResponse.token_type body = "bearer").
  { unfold login in Hlogin.
    destruct (admin_password_hash s); [|discriminate Hlogin].
    destruct (negb _); [discriminate Hlogin|].
    injection Hlogin as <-. reflexivity. }
  split; [exact Htype|].
  assert (Huser : forall utcnow,
    get_current_user_optional utcnow
      (Some (String.append "Bearer"
               (String " " (TokenResponse.access_token body))))
    = if issued_at + 86400 <? utcnow then None else Some "admin").
  { intros utcnow.
    rewrite (get_current_user_optional_bearer utcnow "Bearer"
               (TokenResponse.access_token body) eq_refl).
    unfold verify_token, jwt_decode. cbn [credentials]. rewrite Hlib.
    cbn [exp sub]. now destruct (issued_at + 86400 <? utcnow). }
  split; intros utcnow category favorite Ht; unfold GET_api_links;
    rewrite Huser.
  - apply Z.ltb_ge in Ht. rewrite Ht. apply admin_sees_all.
  - apply Z.ltb_lt in Ht. rewrite Ht. reflexivity.
Qed.

Lemma login_token_lists_hidden_categories_witness :
  @login one_token_env plain_hashlib 0 (LoginRequest.mk "secret")
    database_hidden
  = Return (TokenResponse.mk "signed" "bearer")
  /\ (exists listed,
        @GET_api_links one_token_env sqlite_999 86400 (Some "Bearer signed")
          None None db_hidden
        = Return listed
        /\ Permutation listed
             (map LinkResponse_of_row
                (filter (matches_filters None None) (links db_hidden))))
  /\ @GET_api_links one_token_env sqlite_999 86401 (Some "Bearer signed")
       None None db_hidden
     = @GET_api_links one_token_env sqlite_999 86401 None None None
         db_hidden.
Proof.
  pose proof (@login_token_lists_hidden_categories one_token_env
                plain_hashlib sqlite_999 0 (LoginRequest.mk "secret")
                database_hidden
                (TokenResponse.mk "signed" "bearer") eq_refl eq_refl)
    as [_ [Hbefore Hafter]].
  split; [reflexivity|]. split.
  - apply (Hbefore 86400 None None). simpl. lia.
  - apply (Hafter 86401 None None). simpl. lia.
Defined.

(** ** Changing the password *)



(** ** The settings *)



(** ** The gate of the writing routes *)

(** X17: With credentials [verify_token] does not accept, each of the seven
    routes that depend on it raises what [verify_token] raises, a 403, and
    leaves the database as it is. *)
Theorem writes_need_the_admin_token `{Env} `{Hashlib} (utcnow : Z)
    (creds : HTTPAuthorizationCredentials) (s : Database)
    (Hrejected : forall username,
       verify_token utcnow creds <> Return username) :
  exists e,
    verify_token utcnow creds = Raise e
    /\ status_code e = 403
    /\ (forall current_timestamp link,
          POST_api_links utcnow creds current_timestamp link s
          = (s, Raise e))
    /\ (forall payload,
          PUT_api_links_reorder utcnow creds payload s = (s, Raise e))
    /\ (forall link_id link,
          PUT_api_links utcnow creds link_id link s = (s, Raise e))
    /\ (forall link_id, DELETE_api_links utcnow creds link_id s = (s, Raise e))
    /\ (forall payload,
          PUT_api_categories_order utcnow creds payload s = (s, Raise e))
    /\ (forall new, PUT_api_settings utcnow creds new s = (s, Raise e))
    /\ (forall request,
          POST_api_auth_change_password utcnow creds request s
          = (s, Raise e)).
Proof.
  destruct (verify_token_cases utcnow creds) as [[Hok _] | [e [Hraise H403]]].
  - exfalso. exact (Hrejected _ Hok).
  - exists e. split; [exact Hraise|]. split; [exact H403|].
    unfold POST_api_links, PUT_api_links_reorder, PUT_api_links,
      DELETE_api_links, PUT_api_categories_order, PUT_api_settings,
      POST_api_auth_change_password, Depends_verify_token.
    rewrite Hraise. repeat split.
Qed.

Lemma writes_need_the_admin_token_witness :
  exists e,
    status_code e = 403
    /\ @DELETE_api_links one_token_env 0
         {| scheme := "Bearer"; credentials := "forged" |} 1 database_hidden
       = (database_hidden, Raise e).
Proof.
  destruct (@writes_need_the_admin_token one_token_env plain_hashlib 0
              {| scheme := "Bearer"; credentials := "forged" |}
              database_hidden)
    as [e [_ [H403 [_ [_ [_ [Hdelete _]]]]]]].
  - intros username. discriminate.
  - exists e. split; [exact H403 | exact (Hdelete 1)].
Defined.

(** ** The backfill of [sort_index] *)

Lemma index_of_None (i : Z) (ids : list Z) :
  index_of i ids = None <-> ~ In i ids.
Proof.
  induction ids as [|j ids IH]; simpl; [tauto|].
  destruct (Z.eqb j i) eqn:E.
  - apply Z.eqb_eq in E. split; [discriminate | intros Hn; exfalso; auto].
  - apply Z.eqb_neq in E. destruct (index_of i ids); simpl.
    + split; [discriminate|]. intros Hn. exfalso. apply Hn. right.
      apply Decidable.not_not; [|intros Hni; apply IH in Hni; discriminate].
      destruct (in_dec Z.eq_dec i ids); [now left | now right].
    + split; [|reflexivity]. intros _ [Hj | Hin]; [auto|].
      now apply (proj1 IH).
Qed.

Lemma index_of_inj (i j : Z) (ids : list Z) (k : nat) :
  index_of i ids = Some k -> index_of j ids = Some k -> i = j.
Proof.
  revert k. induction ids as [|x ids IH]; intros k; simpl; [discriminate|].
  destruct (Z.eqb x i) eqn:Ei, (Z.eqb x j) eqn:Ej.
  - apply Z.eqb_eq in Ei, Ej. congruence.
  - intros Hi Hj. injection Hi as <-.
    destruct (index_of j ids); discriminate Hj.
  - intros Hi Hj. injection Hj as <-.
    destruct (index_of i ids); discriminate Hi.
  - destruct (index_of i ids) as [ki|] eqn:Hki; [|discriminate].
    destruct (index_of j ids) as [kj|] eqn:Hkj; [|discriminate].
    simpl. intros Hi Hj. injection Hi as <-. injection Hj as Hk.
    subst kj. now apply (IH ki).
Qed.

Lemma index_of_positions {A : Type} (f : A -> Z) (l : list A) :
  NoDup (map f l) ->
  map (fun x => index_of (f x) (map f l)) l
  = map Some (seq 0 (List.length l)).
Proof.
  induction l as [|a l IH]; simpl; intros Hnd; [reflexivity|].
  inversion Hnd as [|? ? Ha Hnd']; subst.
  rewrite Z.eqb_refl. f_equal.
  rewrite <- seq_shift, map_map.
  rewrite <- (map_map Some (option_map S)), <- (IH Hnd'), map_map.
  apply map_ext_in. intros x Hx.
  destruct (Z.eqb (f a) (f x)) eqn:E; [|reflexivity].
  apply Z.eqb_eq in E. exfalso. apply Ha. rewrite E. now apply in_map.
Qed.

(** The loop over the ids of one category. *)
Lemma backfill_ids (ids : list Z) (start : Z) (t : list Row.t) :
  NoDup ids ->
  fold_left
    (fun t' (entry : Z * Z) =>
       let (idx, link_id) := entry in
       update_where_id link_id (set_sort_index idx) t')
    (enumerate start ids) t
  = map (fun r =>
           match index_of (Row.id r) ids with
           | Some k => set_sort_index (start + Z.of_nat k) r
           | None => r
           end)
      t.
Proof.
  intros Hnd. revert start t.
  induction Hnd as [|i ids Hi Hnd IH]; intros start t.
  - simpl. now rewrite map_id.
  - cbn [enumerate fold_left]. rewrite IH.
    unfold update_where_id. rewrite map_map. apply map_ext. intros r.
    unfold has_id. cbn [index_of]. rewrite (Z.eqb_sym i (Row.id r)).
    destruct (Z.eqb (Row.id r) i) eqn:E.
    + apply Z.eqb_eq in E. cbn [set_sort_index Row.id]. rewrite E.
      apply index_of_None in Hi. rewrite Hi. f_equal. lia.
    + destruct (index_of (Row.id r) ids) as [k|]; simpl; [|reflexivity].
      f_equal. lia.
Qed.

Lemma ids_by_created_at_perm (c : string) (t : list Row.t) :
  Permutation (ids_by_created_at c t)
    (map Row.id (filter (in_category c) t)).
Proof.
  unfold ids_by_created_at. apply Permutation_map. symmetry.
  apply sort_by_perm.
Qed.

Lemma ids_by_created_at_NoDup (c : string) (t : list Row.t) :
  NoDup (map Row.id t) -> NoDup (ids_by_created_at c t).
Proof.
  intros Hnd. eapply Permutation_NoDup;
    [symmetry; apply ids_by_created_at_perm|].
  now apply NoDup_map_filter.
Qed.

Lemma ids_by_created_at_In (c : string) (t : list Row.t) (i : Z) :
  In i (ids_by_created_at c t)
  <-> exists r, In r t /\ Row.category r = c /\ Row.id r = i.
Proof.
  split.
  - intros Hi. eapply Permutation_in in Hi; [|apply ids_by_created_at_perm].
    apply in_map_iff in Hi. destruct Hi as [r [Hid Hr]].
    apply filter_In in Hr. destruct Hr as [Hr Hc].
    apply in_category_true in Hc. eauto.
  - intros [r [Hr [Hc Hid]]].
    eapply Permutation_in; [symmetry; apply ids_by_created_at_perm|].
    apply in_map_iff. exists r. split; [assumption|].
    apply filter_In. split; [assumption | now apply in_category_true].
Qed.

Lemma ids_by_created_at_map (c : string) (g : Row.t -> Row.t)
    (t : list Row.t) :
  (forall r, Row.id (g r) = Row.id r) ->
  (forall r, Row.category (g r) = Row.category r) ->
  (forall r, Row.created_at (g r) = Row.created_at r) ->
  ids_by_created_at c (map g t) = ids_by_created_at c t.
Proof.
  intros Hid Hcat Hcreated. unfold ids_by_created_at.
  rewrite filter_map_same, sort_by_map, map_map.
  - apply map_ext. exact Hid.
  - intros a b. unfold order_by_created_at_id_leb.
    now rewrite !Hcreated, !Hid.
  - intros a. unfold in_category. now rewrite Hcat.
Qed.

Lemma NoDup_map_id_inj (t : list Row.t) (a b : Row.t) :
  NoDup (map Row.id t) -> In a t -> In b t -> Row.id a = Row.id b -> a = b.
Proof.
  induction t as [|x t IH]; simpl; intros Hnd Ha Hb Hid; [contradiction|].
  inversion Hnd as [|? ? Hx Hnd']; subst.
  destruct Ha as [-> | Ha], Hb as [-> | Hb]; auto.
  - exfalso. apply Hx. rewrite Hid. now apply in_map.
  - exfalso. apply Hx. rewrite <- Hid. now apply in_map.
Qed.

Lemma backfill_category_eq (t : list Row.t) (c : string) :
  NoDup (map Row.id t) ->
  backfill_category t c
  = map (fun r => if in_category c r then backfilled t r else r) t.
Proof.
  intros Hnd. unfold backfill_category.
  rewrite backfill_ids by now apply ids_by_created_at_NoDup.
  apply map_ext_in. intros r Hr. unfold backfilled.
  destruct (in_category c r) eqn:Hc.
  - apply in_category_true in Hc. now rewrite Hc.
  - destruct (index_of (Row.id r) (ids_by_created_at c t)) as [k|] eqn:Hk;
      [|reflexivity].
    exfalso.
    assert (Hin : In (Row.id r) (ids_by_created_at c t)).
    { apply Decidable.not_not.
      - destruct (in_dec Z.eq_dec (Row.id r) (ids_by_created_at c t));
          [now left | now right].
      - intros Hn. apply index_of_None in Hn. congruence. }
    apply ids_by_created_at_In in Hin. destruct Hin as [r' [Hr' [Hc' Hid]]].
    assert (r' = r) by (eapply NoDup_map_id_inj; eauto). subst r'.
    apply in_category_true in Hc'. congruence.
Qed.

Lemma backfilled_columns (t : list Row.t) (r : Row.t) :
  Row.id (backfilled t r) = Row.id r
  /\ Row.category (backfilled t r) = Row.category r
  /\ Row.created_at (backfilled t r) = Row.created_at r
  /\ backfilled t r = set_sort_index (Row.sort_index (backfilled t r)) r.
Proof.
  unfold backfilled.
  destruct (index_of (Row.id r) (ids_by_created_at (Row.category r) t));
    repeat split; destruct r; reflexivity.
Qed.

Lemma backfill_categories_eq (categories : list string) (t : list Row.t) :
  NoDup categories -> NoDup (map Row.id t) ->
  fold_left backfill_category categories t
  = map (fun r =>
           if str_in (Row.category r) categories then backfilled t r else r)
      t.
Proof.
  intros Hcats. revert t.
  induction Hcats as [|c categories Hc Hcats IH]; intros t Hnd.
  - simpl. now rewrite map_id.
  - cbn [fold_left]. rewrite backfill_category_eq by assumption.
    set (g := fun r => if in_category c r then backfilled t r else r).
    assert (Hg : forall r,
      Row.id (g r) = Row.id r
      /\ Row.category (g r) = Row.category r
      /\ Row.created_at (g r) = Row.created_at r).
    { intros r. unfold g. destruct (in_category c r); [|auto].
      pose proof (backfilled_columns t r). tauto. }
    rewrite IH.
    2:{ rewrite map_map. erewrite map_ext; [exact Hnd|].
        intros r. apply Hg. }
    rewrite map_map. apply map_ext. intros r.
    destruct (Hg r) as [Hgid [Hgcat _]]. rewrite Hgcat.
    assert (Hcons :
      str_in (Row.category r) (c :: categories)
      = String.eqb (Row.category r) c || str_in (Row.category r) categories)
      by reflexivity.
    assert (Hgr :
      g r = if String.eqb (Row.category r) c then backfilled t r else r)
      by reflexivity.
    rewrite Hcons, Hgr.
    destruct (String.eqb (Row.category r) c) eqn:E.
    + apply String.eqb_eq in E.
      assert (Hn : str_in (Row.category r) categories = false)
        by (apply str_in_not_In; now rewrite E).
      rewrite Hn. reflexivity.
    + simpl. destruct (str_in (Row.category r) categories); [|reflexivity].
      unfold backfilled.
      rewrite ids_by_created_at_map; [reflexivity | | |]; intros x;
        apply Hg.
Qed.

Lemma backfill_sort_index_eq (t : list Row.t) :
  NoDup (map Row.id t) -> backfill_sort_index t = map (backfilled t) t.
Proof.
  intros Hnd. unfold backfill_sort_index.
  rewrite backfill_categories_eq by (auto using distinct_NoDup).
  apply map_ext_in. intros r Hr.
  assert (Hin : str_in (Row.category r) (distinct (map Row.category t))
                = true).
  { apply str_in_In, distinct_In. now apply in_map. }
  now rewrite Hin.
Qed.

Lemma backfilled_sort_index (t : list Row.t) (r : Row.t) :
  In r t ->
  exists k,
    index_of (Row.id r) (ids_by_created_at (Row.category r) t) = Some k
    /\ Row.sort_index (backfilled t r) = 1 + Z.of_nat k.
Proof.
  intros Hr. unfold backfilled.
  destruct (index_of (Row.id r) (ids_by_created_at (Row.category r) t))
    as [k|] eqn:Hk.
  - exists k. split; reflexivity.
  - exfalso. apply index_of_None in Hk. apply Hk.
    apply ids_by_created_at_In. eauto.
Qed.

Lemma NoDup_map_by {A B C : Type} (f : A -> B) (g : A -> C) (l : list A) :
  NoDup (map f l) ->
  (forall x y, In x l -> In y l -> g x = g y -> f x = f y) ->
  NoDup (map g l).
Proof.
  induction l as [|a l IH]; simpl; intros Hnd Hinj; [constructor|].
  inversion Hnd as [|? ? Ha Hnd']; subst. constructor.
  - intros Hin. apply in_map_iff in Hin. destruct Hin as [x [Hgx Hx]].
    apply Ha. rewrite <- (Hinj x a); auto. now apply in_map.
  - apply IH; auto.
Qed.

Lemma backfill_sort_index_numbers (t : list Row.t) (c : string) :
  NoDup (map Row.id t) ->
  map Row.sort_index
    (sort_by order_by_created_at_id_leb
       (filter (in_category c) (backfill_sort_index t)))
  = map Z.of_nat (seq 1 (List.length (filter (in_category c) t))).
Proof.
  intros Hids. rewrite backfill_sort_index_eq by assumption.
  rewrite filter_map_same, sort_by_map, map_map.
  2:{ intros a b. unfold order_by_created_at_id_leb.
      destruct (backfilled_columns t a) as [-> [_ [-> _]]].
      destruct (backfilled_columns t b) as [-> [_ [-> _]]]. reflexivity. }
  2:{ intros a. unfold in_category.
      now destruct (backfilled_columns t a) as [_ [-> _]]. }
  set (rows := sort_by order_by_created_at_id_leb
                 (filter (in_category c) t)).
  assert (Hperm : Permutation (filter (in_category c) t) rows)
    by apply sort_by_perm.
  assert (Hnd : NoDup (map Row.id rows)).
  { eapply Permutation_NoDup; [apply Permutation_map, Hperm|].
    now apply NoDup_map_filter. }
  rewrite (Permutation_length Hperm).
  rewrite <- seq_shift, map_map.
  assert (Hmap :
    map (fun r => Some (Row.sort_index (backfilled t r))) rows
    = map (fun k => Some (Z.of_nat (S k))) (seq 0 (List.length rows))).
  { rewrite <- (map_map Some (option_map (fun k => Z.of_nat (S k)))).
    rewrite <- (index_of_positions Row.id rows Hnd), map_map.
    apply map_ext_in. intros r Hr.
    assert (Hr' : In r (filter (in_category c) t))
      by (eapply Permutation_in; [symmetry; exact Hperm | exact Hr]).
    apply filter_In in Hr'. destruct Hr' as [Hrt Hrc].
    apply in_category_true in Hrc.
    destruct (backfilled_sort_index t r Hrt) as [k [Hk ->]].
    rewrite Hrc in Hk. unfold ids_by_created_at in Hk. fold rows in Hk.
    rewrite Hk. cbn [option_map]. f_equal. lia. }
  clear - Hmap. revert Hmap. generalize (seq 0 (List.length rows)).
  induction rows as [|r rows IH]; intros [|k ks]; simpl; try discriminate;
    [reflexivity|].
  intros Hmap. injection Hmap as Hk Hmap. f_equal; auto.
Qed.

Lemma backfilled_inj (t : list Row.t) (x y : Row.t) :
  In x t -> In y t ->
  Row.category (backfilled t x) = Row.category (backfilled t y) ->
  Row.sort_index (backfilled t x) = Row.sort_index (backfilled t y) ->
  Row.id x = Row.id y.
Proof.
  intros Hx Hy Hc Hs.
  destruct (backfilled_columns t x) as [_ [Hcx _]].
  destruct (backfilled_columns t y) as [_ [Hcy _]].
  rewrite Hcx, Hcy in Hc.
  destruct (backfilled_sort_index t x Hx) as [kx [Hkx Hsx]].
  destruct (backfilled_sort_index t y Hy) as [ky [Hky Hsy]].
  rewrite Hsx, Hsy in Hs. assert (kx = ky) by lia. subst ky.
  rewrite <- Hc in Hky. eapply index_of_inj; eauto.
Qed.

(** X18: On a table whose ids differ, the backfill numbers each category: the
    links of a category, taken by [created_at] and then by id, get the
    [sort_index] 1, 2, .., n.  So no two links of a category share a
    [sort_index], and the backfill changes no other column and no id. *)
Theorem backfill_numbers_each_category (t : list Row.t)
    (Hids : NoDup (map Row.id t)) :
  (forall c,
     map Row.sort_index
       (sort_by order_by_created_at_id_leb
          (filter (in_category c) (backfill_sort_index t)))
     = map Z.of_nat (seq 1 (List.length (filter (in_category c) t))))
  /\ sort_index_unique (backfill_sort_index t)
  /\ Forall2 (fun r r' => r' = set_sort_index (Row.sort_index r') r)
       t (backfill_sort_index t).
Proof.
  split; [|split].
  - intros c. now apply backfill_sort_index_numbers.
  - rewrite backfill_sort_index_eq by assumption.
    unfold sort_index_unique. rewrite map_map.
    apply (NoDup_map_by Row.id); [assumption|].
    intros x y Hx Hy Hpair. injection Hpair as Hc Hs.
    now apply (backfilled_inj t).
  - rewrite backfill_sort_index_eq by assumption.
    apply Forall2_map_self. intros r. apply backfilled_columns.
Qed.

Lemma backfill_numbers_each_category_witness :
  NoDup (map Row.id table_not_numbered)
  /\ map (fun r => (Row.id r, Row.sort_index r))
       (backfill_sort_index table_not_numbered)
     = [(1, 2); (2, 1); (3, 1)]
  /\ sort_index_unique (backfill_sort_index table_not_numbered).
Proof.
  assert (Hids : NoDup (map Row.id table_not_numbered)).
  { simpl. constructor; [simpl; intuition lia|].
    constructor; [simpl; intuition lia|].
    constructor; [simpl; tauto | constructor]. }
  split; [exact Hids|]. split; [reflexivity|].
  exact (proj1 (proj2 (backfill_numbers_each_category table_not_numbered
                         Hids))).
Defined.

(** ** Startup *)

Lemma seed_fold_settings (entries : list (nat * default_link))
    (clock : nat -> string) (db : DB) :
  settings
    (fold_left
       (fun db' (entry : nat * default_link) =>
          let (k, seed) := entry in insert_default_link (clock k) db' seed)
       entries db)
  = settings db.
Proof.
  revert db. induction entries as [|[k seed] entries IH]; intros db;
    [reflexivity|].
  cbn [fold_left]. now rewrite IH.
Qed.

Lemma seed_fold_links (entries : list (nat * default_link))
    (clock : nat -> string) (db : DB) :
  entries <> [] \/ links db <> [] ->
  links
    (fold_left
       (fun db' (entry : nat * default_link) =>
          let (k, seed) := entry in insert_default_link (clock k) db' seed)
       entries db)
  <> [].
Proof.
  revert db. induction entries as [|[k seed] entries IH]; intros db Hne.
  - simpl. destruct Hne as [Hne | Hne]; [contradiction | exact Hne].
  - cbn [fold_left]. apply IH. right. cbn [insert_default_link links].
    intros Heq. apply app_eq_nil in Heq. destruct Heq as [_ Heq].
    discriminate Heq.
Qed.

Lemma str_in_app (x : string) (l1 l2 : list string) :
  str_in x (l1 ++ l2) = str_in x l1 || str_in x l2.
Proof. unfold str_in. apply existsb_app. Qed.

(** A database that has what startup provides is left as it is. *)
Lemma init_db_ready `{Hashlib} (clock : nat -> string) (s : Database)
    (cols : list string) :
  links_columns s = Some cols ->
  str_in "description" cols = true ->
  str_in "icon_url" cols = true ->
  str_in "sort_index" cols = true ->
  links (catalogue s) <> [] ->
  admin_password_hash s <> None ->
  site_title_row s <> None ->
  site_logo_row s <> None ->
  hidden_categories_row (settings (catalogue s)) <> None ->
  category_order_row (settings (catalogue s)) <> None ->
  init_db clock s = s.
Proof.
  destruct s as [[lk sq [hid ord]] title logo admin columns].
  cbn [links_columns catalogue links settings admin_password_hash
       site_title_row site_logo_row hidden_categories_row
       category_order_row].
  intros -> Hd Hi Hs Hlk Hadmin Htitle Hlogo Hhid Hord.
  unfold init_db.
  cbn [links_columns catalogue links links_seq settings admin_password_hash
       site_title_row site_logo_row hidden_categories_row
       category_order_row dict_get].
  rewrite Hd, Hi, Hs. cbn [negb app]. rewrite app_nil_r.
  destruct lk as [|r lk]; [contradiction|].
  destruct admin; [|contradiction]. destruct title; [|contradiction].
  destruct logo; [|contradiction]. destruct hid; [|contradiction].
  destruct ord; [|contradiction].
  reflexivity.
Qed.

Lemma init_db_columns `{Hashlib} (clock : nat -> string) (s : Database) :
  exists cols,
    links_columns (init_db clock s) = Some cols
    /\ str_in "description" cols = true
    /\ str_in "icon_url" cols = true
    /\ str_in "sort_index" cols = true.
Proof.
  unfold init_db. cbn [links_columns]. eexists. split; [reflexivity|].
  set (columns := dict_get (links_columns s) base_columns).
  rewrite !str_in_app.
  destruct (str_in "description" columns), (str_in "icon_url" columns),
    (str_in "sort_index" columns); repeat split; reflexivity.
Qed.

Lemma init_db_links `{Hashlib} (clock : nat -> string) (s : Database) :
  links (catalogue (init_db clock s)) <> [].
Proof.
  unfold init_db. cbn [catalogue].
  match goal with
  | |- links (if Nat.eqb (List.length ?t) 0 then _ else _) <> [] =>
      destruct t as [|r t3] eqn:Ht
  end.
  - cbn [List.length Nat.eqb]. unfold seed_default_links.
    apply seed_fold_links. left. discriminate.
  - cbn [List.length Nat.eqb links]. discriminate.
Qed.

Lemma init_db_settings `{Hashlib} (clock : nat -> string) (s : Database) :
  settings (catalogue (init_db clock s))
  = {| hidden_categories_row :=
         insert_or_ignore (hidden_categories_row (settings (catalogue s))) [];
       category_order_row :=
         insert_or_ignore (category_order_row (settings (catalogue s))) [] |}.
Proof.
  unfold init_db. cbn [catalogue].
  match goal with
  | |- settings (if ?b then _ else _) = _ => destruct b
  end.
  - unfold seed_default_links. now rewrite seed_fold_settings.
  - reflexivity.
Qed.

(** X19: Startup provides, on every database: a row for the admin (the one it
    finds, or the hash of "admin123"), the four settings (those it finds, or
    their defaults), a table of links that is not empty, with the columns
    [description], [icon_url] and [sort_index].  And running it again, at
    any time, changes nothing. *)
Theorem init_db_provides_and_repeats `{Hashlib} (clock : nat -> string)
    (s : Database) :
  admin_password_hash (init_db clock s)
  = Some (dict_get (admin_password_hash s) (hash_password "admin123"))
  /\ get_settings (init_db clock s)
     = {| Settings.site_title := dict_get (site_title_row s) "Aesthetic Nav";
          Settings.site_logo := dict_get (site_logo_row s) default_site_logo;
          Settings.hidden_categories :=
            dict_get (hidden_categories_row (settings (catalogue s))) [];
          Settings.category_order :=
            dict_get (category_order_row (settings (catalogue s))) [] |}
  /\ links (catalogue (init_db clock s)) <> []
  /\ (exists cols,
        links_columns (init_db clock s) = Some cols
        /\ In "description" cols /\ In "icon_url" cols
        /\ In "sort_index" cols)
  /\ (forall clock', init_db clock' (init_db clock s) = init_db clock s).
Proof.
  split; [|split; [|split; [|split]]].
  - unfold init_db. cbn [admin_password_hash].
    now destruct (admin_password_hash s).
  - unfold get_settings. rewrite init_db_settings. unfold init_db.
    cbn [site_title_row site_logo_row hidden_categories_row
         category_order_row].
    destruct (site_title_row s), (site_logo_row s),
      (hidden_categories_row (settings (catalogue s))),
      (category_order_row (settings (catalogue s))); reflexivity.
  - apply init_db_links.
  - destruct (init_db_columns clock s) as [cols [Hcols [Hd [Hi Hs]]]].
    exists cols. rewrite <- !str_in_In. auto.
  - intros clock'.
    destruct (init_db_columns clock s) as [cols [Hcols [Hd [Hi Hs]]]].
    apply (init_db_ready clock' (init_db clock s) cols); auto.
    + apply init_db_links.
    + unfold init_db. cbn [admin_password_hash].
      destruct (admin_password_hash s); discriminate.
    + unfold init_db. cbn [site_title_row].
      destruct (site_title_row s); discriminate.
    + unfold init_db. cbn [site_logo_row].
      destruct (site_logo_row s); discriminate.
    + rewrite init_db_settings. cbn [hidden_categories_row].
      destruct (hidden_categories_row (settings (catalogue s)));
        discriminate.
    + rewrite init_db_settings. cbn [category_order_row].
      destruct (category_order_row (settings (catalogue s))); discriminate.
Qed.

(** X20: Startup keeps what it finds: on a database whose table of links has the
    three later columns and a link, and which has the admin's row and the
    four settings, it changes nothing; in particular it never puts the
    default password or the default links back. *)
Theorem init_db_keeps_what_is_there `{Hashlib} (clock : nat -> string)
    (s : Database) (cols : list string)
    (Hcols : links_columns s = Some cols)
    (Hdescription : In "description" cols)
    (Hicon_url : In "icon_url" cols)
    (Hsort_index : In "sort_index" cols)
    (Hlinks : links (catalogue s) <> [])
    (Hadmin : admin_password_hash s <> None)
    (Htitle : site_title_row s <> None)
    (Hlogo : site_logo_row s <> None)
    (Hhidden : hidden_categories_row (settings (catalogue s)) <> None)
    (Horder : category_order_row (settings (catalogue s)) <> None) :
  init_db clock s = s.
Proof.
  apply (init_db_ready clock s cols); auto; now apply str_in_In.
Qed.

Lemma init_db_keeps_what_is_there_witness :
  @init_db plain_hashlib (fun _ => "2024-05-01 00:00:00") database_hidden
  = database_hidden.
Proof.
  apply (@init_db_keeps_what_is_there plain_hashlib _ database_hidden
           (base_columns ++ ["description"; "icon_url"; "sort_index"]));
    try discriminate; try reflexivity; simpl; auto 15.
Defined.

(** X21: Startup on a database of before [sort_index] (a table of links with the
    columns [description] and [icon_url] but not [sort_index], some links,
    ids that differ): the links it leaves are the links it found, by id, with
    each category numbered 1, 2, .., n by [created_at] and then by id; no
    two links of a category share a [sort_index]. *)
Theorem init_db_numbers_an_old_table `{Hashlib} (clock : nat -> string)
    (s : Database) (cols : list string)
    (Hcols : links_columns s = Some cols)
    (Hdescription : In "description" cols)
    (Hicon_url : In "icon_url" cols)
    (Hsort_index : ~ In "sort_index" cols)
    (Hlinks : links (catalogue s) <> [])
    (Hids : NoDup (map Row.id (links (catalogue s)))) :
  let t' := links (catalogue (init_db clock s)) in
  Forall2
    (fun r r' => r' = set_sort_index (Row.sort_index r') r)
    (links (catalogue s)) t'
  /\ sort_index_unique t'
  /\ (forall c,
        map Row.sort_index
          (sort_by order_by_created_at_id_leb (filter (in_category c) t'))
        = map Z.of_nat
            (seq 1
               (List.length (filter (in_category c) (links (catalogue s)))))).
Proof.
  apply str_in_In in Hdescription, Hicon_url.
  apply str_in_not_In in Hsort_index.
  set (t := links (catalogue s)) in *.
  set (t0 := map (set_sort_index 0) t).
  assert (Hids0 : NoDup (map Row.id t0)).
  { unfold t0. rewrite map_map. exact Hids. }
  assert (Ht' : links (catalogue (init_db clock s)) = backfill_sort_index t0).
  { unfold init_db. rewrite Hcols. cbn [dict_get catalogue].
    rewrite Hdescription, Hicon_url, Hsort_index. cbn [negb].
    fold t. fold t0.
    rewrite backfill_sort_index_eq by assumption.
    rewrite length_map. unfold t0. rewrite length_map.
    destruct t as [|r t1] eqn:Et; [contradiction|]. reflexivity. }
  cbv zeta. rewrite Ht'.
  split; [|split].
  - rewrite backfill_sort_index_eq by assumption.
    unfold t0. rewrite map_map. apply Forall2_map_self. intros r.
    destruct (backfilled_columns (map (set_sort_index 0) t)
                (set_sort_index 0 r)) as [_ [_ [_ Hr]]].
    rewrite Hr. destruct r; reflexivity.
  - rewrite backfill_sort_index_eq by assumption.
    unfold sort_index_unique. rewrite map_map.
    apply (NoDup_map_by Row.id); [assumption|].
    intros x y Hx Hy Hpair. injection Hpair as Hc Hs.
    now apply (backfilled_inj t0).
  - intros c. rewrite backfill_sort_index_numbers by assumption. unfold t0.
    rewrite filter_map_same, length_map; [reflexivity|].
    intros r. destruct r; reflexivity.
Qed.

Lemma init_db_numbers_an_old_table_witness :
  map (fun r => (Row.id r, Row.sort_index r))
    (links
       (catalogue
          (@init_db plain_hashlib (fun _ => "2024-05-01 00:00:00")
             database_old)))
  = [(1, 2); (2, 1); (3, 1)]
  /\ sort_index_unique
       (links
          (catalogue
             (@init_db plain_hashlib (fun _ => "2024-05-01 00:00:00")
                database_old))).
Proof.
  split; [reflexivity|].
  refine (proj1 (proj2
            (@init_db_numbers_an_old_table plain_hashlib
               (fun _ => "2024-05-01 00:00:00") database_old
               (base_columns ++ ["description"; "icon_url"])
               eq_refl _ _ _ _ _))).
  - simpl. auto 15.
  - simpl. auto 15.
  - simpl. intros Hin.
    repeat (destruct Hin as [Hin | Hin]; [discriminate Hin|]).
    exact Hin.
  - discriminate.
  - simpl. constructor; [simpl; intuition lia|].
    constructor; [simpl; intuition lia|].
    constructor; [simpl; tauto | constructor].
Defined.

(** Startup on a new file: the nine default links, three to a category,
    listed by category name and then by [sort_index]; the default password
    logs in. *)
Example init_db_on_a_new_file :
  response_map
    (map (fun l => (LinkResponse.id l, LinkResponse.category l,
                    LinkResponse.sort_index l)))
    (@get_links sqlite_999
       (catalogue
          (@init_db plain_hashlib (fun _ => "2024-05-01 00:00:00")
             database_new))
       None None None)
  = Return
      [(4, "Design Tools", 1); (5, "Design Tools", 2); (6, "Design Tools", 3);
       (7, "News & Media", 1); (8, "News & Media", 2); (9, "News & Media", 3);
       (1, "Social Media", 1); (2, "Social Media", 2);
       (3, "Social Media", 3)]
  /\ @login one_token_env plain_hashlib 0 (LoginRequest.mk "admin123")
       (@init_db plain_hashlib (fun _ => "2024-05-01 00:00:00") database_new)
     = Return (TokenResponse.mk "signed" "bearer").
Proof. split; reflexivity. Qed.

(** ** Creating and deleting *)


